(** * SpaceX Launch Records Dashboard: the chart callbacks of [Dashboard.ipynb]

    A shallow embedding of the two Dash callbacks [get_pie_chart] and
    [update_scatter_chart], of the data-frame expressions they are made of
    and of the values the script computes when it starts, followed by the
    properties the specification states about them.

    A data frame is the list of its rows, in row order.  The column
    ['Payload Mass (kg)'] has one dtype, [int64] or [float64], as [read_csv]
    infers it; a float is given by its exact (rational) value.  A slider
    bound reaches a callback as a Python [int] or [float].  Comparing the
    column with a bound follows numpy: two integers and two floats are
    compared exactly, an integer met by a float is first cast to float64.
    The column ['class'] holds integers. *)

From Stdlib Require Import List String ZArith QArith Bool Lia FinFun.
Import ListNotations.

Local Open Scope string_scope.
Local Open Scope Z_scope.

(** ** Numbers *)

(** The dtype of the payload column. *)
Inductive dtype : Type :=
| int64
| float64.

(** A cell of a column of that dtype: an integer, or a float by its value. *)
Definition cell (dt : dtype) : Type :=
  match dt with
  | int64 => Z
  | float64 => Q
  end.

(** A Python number: an [int], or a [float] by its value. *)
Inductive number : Type :=
| PyInt (z : Z)
| PyFloat (q : Q).

(** A cell read as a number of its own kind ([np.int64] or [np.float64]). *)
Definition cell_number {dt : dtype} : cell dt -> number :=
  match dt return cell dt -> number with
  | int64 => PyInt
  | float64 => PyFloat
  end.

Definition number_value (n : number) : Q :=
  match n with
  | PyInt z => inject_Z z
  | PyFloat q => q
  end.

Definition cell_value {dt : dtype} (c : cell dt) : Q :=
  number_value (cell_number c).

(** The cast of an integer to float64: the nearest number with a 53-bit
    significand, ties going to the even significand.  Integers up to 2^53 in
    magnitude are their own cast.  (The exponent range of float64, which no
    int64 reaches, is not modelled.) *)
Definition round_f64 (z : Z) : Z :=
  let a := Z.abs z in
  let e := Z.log2 a - 52 in
  if e <=? 0 then z
  else
    let q := a / 2 ^ e in
    let r := a mod 2 ^ e in
    let half := 2 ^ (e - 1) in
    let q' := if r <? half then q
              else if half <? r then q + 1
              else if Z.even q then q
              else q + 1 in
    Z.sgn z * (q' * 2 ^ e).

Definition to_float64 (z : Z) : Q := inject_Z (round_f64 z).

(** [column >= b] and [column <= b] at one cell [c], for a scalar [b]:
    exact between two integers and between two floats; an int64 cell met by
    a float bound, and an integer bound met by a float64 cell, are cast to
    float64 before the comparison. *)
Definition ge_scalar {dt : dtype} (c : cell dt) (b : number) : bool :=
  match dt return cell dt -> bool with
  | int64 => fun z =>
      match b with
      | PyInt k => k <=? z
      | PyFloat f => Qle_bool f (to_float64 z)
      end
  | float64 => fun q =>
      match b with
      | PyInt k => Qle_bool (to_float64 k) q
      | PyFloat f => Qle_bool f q
      end
  end c.

Definition le_scalar {dt : dtype} (c : cell dt) (b : number) : bool :=
  match dt return cell dt -> bool with
  | int64 => fun z =>
      match b with
      | PyInt k => z <=? k
      | PyFloat f => Qle_bool (to_float64 z) f
      end
  | float64 => fun q =>
      match b with
      | PyInt k => Qle_bool q (to_float64 k)
      | PyFloat f => Qle_bool q f
      end
  end c.

(** The order of the cells of one column. *)
Definition cell_leb {dt : dtype} : cell dt -> cell dt -> bool :=
  match dt return cell dt -> cell dt -> bool with
  | int64 => Z.leb
  | float64 => Qle_bool
  end.

(** No cast is involved in comparing the cell [c] with the bound [b], or
    the integer that is cast is at most 2^53 in magnitude, so that the cast
    keeps its value. *)
Definition compares_exactly {dt : dtype} (c : cell dt) (b : number) : Prop :=
  match dt return cell dt -> Prop with
  | int64 => fun z =>
      match b with
      | PyInt _ => True
      | PyFloat _ => Z.abs z <= 2 ^ 53
      end
  | float64 => fun _ =>
      match b with
      | PyInt k => Z.abs k <= 2 ^ 53
      | PyFloat _ => True
      end
  end c.

(** ** Launch records *)

(** One row of [spacex_df], with the four columns the callbacks read. *)
Record row (dt : dtype) : Type := mkRow {
  Launch_Site : string;
  Payload_Mass : cell dt;
  class : Z;
  Booster_Version_Category : string
}.

Arguments mkRow {dt} _ _ _ _.
Arguments Launch_Site {dt} _.
Arguments Payload_Mass {dt} _.
Arguments class {dt} _.
Arguments Booster_Version_Category {dt} _.

Definition DataFrame (dt : dtype) : Type := list (row dt).

Definition Q_eq_dec (a b : Q) : {a = b} + {a <> b}.
Proof.
  decide equality; [apply Pos.eq_dec | apply Z.eq_dec].
Defined.

Definition cell_eq_dec {dt : dtype}
  : forall a b : cell dt, {a = b} + {a <> b} :=
  match dt return forall a b : cell dt, {a = b} + {a <> b} with
  | int64 => Z.eq_dec
  | float64 => Q_eq_dec
  end.

Definition row_eq_dec {dt : dtype} (r1 r2 : row dt) : {r1 = r2} + {r1 <> r2}.
Proof.
  decide equality;
    [apply string_dec | apply Z.eq_dec | apply cell_eq_dec | apply string_dec].
Defined.

(** ** The pandas expressions of the callbacks *)

Module Pandas.

(** [df[mask]]: boolean indexing keeps, in order, the rows whose mask entry
    is [True]; the result is a new frame. *)
Definition getitem_mask {dt : dtype} (df : DataFrame dt)
  (mask : row dt -> bool) : DataFrame dt :=
  filter mask df.

(** The sorted distinct keys of a column, as [groupby] (with its default
    [sort=True]) lists its groups. *)
Fixpoint insert_key (k : Z) (ks : list Z) : list Z :=
  match ks with
  | [] => [k]
  | k' :: rest =>
      if k <? k' then k :: ks
      else if k =? k' then ks
      else k' :: insert_key k rest
  end.

Definition group_keys (col : list Z) : list Z :=
  fold_right insert_key [] col.

(** Number of entries of [col] equal to [k]: the size of the group of [k]. *)
Definition group_size (col : list Z) (k : Z) : Z :=
  Z.of_nat (count_occ Z.eq_dec col k).

(** [.groupby([key]).size().reset_index(name=...)] on the key column [col]:
    one row (key, count) per key that occurs, by ascending key. *)
Definition groupby_size (col : list Z) : list (Z * Z) :=
  map (fun k => (k, group_size col k)) (group_keys col).

(** [Series.max()] and [Series.min()]; [None] stands for the [NaN] pandas
    gives on an empty column. *)
Definition cell_max {dt : dtype} (a b : cell dt) : cell dt :=
  if cell_leb a b then b else a.
Definition cell_min {dt : dtype} (a b : cell dt) : cell dt :=
  if cell_leb a b then a else b.

Definition series_max {dt : dtype} (col : list (cell dt)) : option (cell dt) :=
  match col with
  | [] => None
  | q :: rest => Some (fold_left cell_max rest q)
  end.

Definition series_min {dt : dtype} (col : list (cell dt)) : option (cell dt) :=
  match col with
  | [] => None
  | q :: rest => Some (fold_left cell_min rest q)
  end.

(** [Series.unique()]: the distinct values, by first appearance. *)
Fixpoint unique (col : list string) : list string :=
  match col with
  | [] => []
  | s :: rest => s :: filter (fun s' => negb (String.eqb s' s)) (unique rest)
  end.

End Pandas.

(** The four aggregation functions the specification names; each is one
    expression of the callbacks. *)

(** [spacex_df[(spacex_df['Payload Mass (kg)'] >= low) &
               (spacex_df['Payload Mass (kg)'] <= high)]] *)
Definition payload_mask {dt : dtype} (low high : number) (r : row dt) : bool :=
  ge_scalar (Payload_Mass r) low && le_scalar (Payload_Mass r) high.

Definition filterByPayloadRange {dt : dtype} (df : DataFrame dt)
  (low high : number) : DataFrame dt :=
  Pandas.getitem_mask df (payload_mask low high).

(** [df[df['Launch Site'] == entered_site]] *)
Definition site_mask {dt : dtype} (entered_site : string) (r : row dt) : bool :=
  String.eqb (Launch_Site r) entered_site.

Definition filterBySite {dt : dtype} (df : DataFrame dt)
  (entered_site : string) : DataFrame dt :=
  Pandas.getitem_mask df (site_mask entered_site).

(** [filtered_df.groupby(['class']).size().reset_index(name='class count')]
    with [filtered_df] the rows of the site: the frame [site_df], rows
    (class, class count). *)
Definition siteOutcomeCounts {dt : dtype} (df : DataFrame dt)
  (entered_site : string) : list (Z * Z) :=
  Pandas.groupby_size (map class (filterBySite df entered_site)).

(** Reading [site_df] as a mapping from class to count. *)
Fixpoint lookup_class (c : Z) (site_df : list (Z * Z)) : option Z :=
  match site_df with
  | [] => None
  | (c', n) :: rest => if c =? c' then Some n else lookup_class c rest
  end.

Definition class_present (c : Z) (site_df : list (Z * Z)) : Prop :=
  exists n, lookup_class c site_df = Some n.

(** ** The plotly express figures *)

Module Plotly.

(** A sector label is a site name or an outcome class. *)
Inductive label : Type :=
| StrLabel (s : string)
| IntLabel (n : Z).

Definition label_eqb (a b : label) : bool :=
  match a, b with
  | StrLabel s, StrLabel t => String.eqb s t
  | IntLabel n, IntLabel m => n =? m
  | _, _ => false
  end.

Record point : Type := mkPoint {
  x : number;
  y : Z;
  color : string
}.

Inductive figure : Type :=
| PieFigure (sectors : list (label * Z)) (title : string)
| ScatterFigure (points : list point) (title : string).

(** Adds the value [v] to the sector of label [l], opening a new sector
    after the existing ones when [l] has none yet. *)
Fixpoint add_to_sector (l : label) (v : Z) (cd : list (label * Z))
  : list (label * Z) :=
  match cd with
  | [] => [(l, v)]
  | (l', v') :: rest =>
      if label_eqb l l' then (l', v' + v) :: rest
      else (l', v') :: add_to_sector l v rest
  end.

Definition sum_by_label (pts : list (label * Z)) : list (label * Z) :=
  fold_left (fun cd p => add_to_sector (fst p) (snd p) cd) pts [].

(** Modelled from the spec: the charting library behind [px.pie] is not part
    of the sources.  Following section 4.2 and 4.4 of the specification, a
    pie chart has one slice per name, in order of first appearance: the
    values of the rows that share a name are added up, and a name whose
    total is zero (a site without successes) gets no slice; nor does a
    total below zero, which binary outcome classes never produce. *)
Definition pie_sectors (pts : list (label * Z)) : list (label * Z) :=
  filter (fun s => 0 <? snd s) (sum_by_label pts).

(** [px.pie(data, values=..., names=..., title=...)] *)
Definition px_pie {R : Type} (data : list R) (values : R -> Z)
  (names : R -> label) (title : string) : figure :=
  PieFigure (pie_sectors (map (fun r => (names r, values r)) data)) title.

(** [px.scatter(data, x='Payload Mass (kg)', y='class',
               color='Booster Version Category', title=...)]:
    one point per row of [data]. *)
Definition px_scatter {dt : dtype} (data : DataFrame dt) (title : string)
  : figure :=
  ScatterFigure
    (map (fun r => mkPoint (cell_number (Payload_Mass r)) (class r)
                           (Booster_Version_Category r)) data)
    title.

Definition sectors_total (cd : list (label * Z)) : Z :=
  fold_right (fun s acc => snd s + acc) 0 cd.

End Plotly.

(** [px.pie(spacex_df, values='class', names='Launch Site', ...)]: the
    per-site totals of the 'ALL' branch. *)
Definition siteSuccessTotals {dt : dtype} (df : DataFrame dt)
  : list (Plotly.label * Z) :=
  Plotly.pie_sectors
    (map (fun r => (Plotly.StrLabel (Launch_Site r), class r)) df).

(** ** Module state and the callback monad *)

(** The module-level variables set once when the script starts. *)
Record globals (dt : dtype) : Type := mkGlobals {
  spacex_df : DataFrame dt;
  max_payload : option (cell dt);
  min_payload : option (cell dt);
  launch_sites : list string
}.

Arguments mkGlobals {dt} _ _ _ _.
Arguments spacex_df {dt} _.
Arguments max_payload {dt} _.
Arguments min_payload {dt} _.
Arguments launch_sites {dt} _.

(** The start of the script, after [read_csv] has delivered the rows. *)
Definition load {dt : dtype} (rows : DataFrame dt) : globals dt :=
  {| spacex_df := rows;
     max_payload := Pandas.series_max (map Payload_Mass rows);
     min_payload := Pandas.series_min (map Payload_Mass rows);
     launch_sites := Pandas.unique (map Launch_Site rows) |}.

(** Unpacking [low, high = payload_range] raises [ValueError] unless the
    sequence has exactly two items. *)
Inductive exn : Type :=
| ValueError_not_enough_values
| ValueError_too_many_values.

Inductive result (A : Type) : Type :=
| Ok (a : A)
| Raise (e : exn).

Arguments Ok {A} a.
Arguments Raise {A} e.

(** A callback runs against the module state and hands it on. *)
Definition M (dt : dtype) (A : Type) : Type :=
  globals dt -> result A * globals dt.

Definition ret {dt : dtype} {A : Type} (a : A) : M dt A :=
  fun g => (Ok a, g).

Definition raise {dt : dtype} {A : Type} (e : exn) : M dt A :=
  fun g => (Raise e, g).

Definition bind {dt : dtype} {A B : Type} (m : M dt A) (k : A -> M dt B)
  : M dt B :=
  fun g =>
    match m g with
    | (Ok a, g') => k a g'
    | (Raise e, g') => (Raise e, g')
    end.

Notation "x <- m ;; k" := (bind m (fun x => k))
  (at level 61, m at next level, right associativity).

(** Reading the global [spacex_df]. *)
Definition read_spacex_df {dt : dtype} : M dt (DataFrame dt) :=
  fun g => (Ok (spacex_df g), g).

Definition unpack2 {dt : dtype} (payload_range : list number)
  : M dt (number * number) :=
  match payload_range with
  | [low; high] => ret (low, high)
  | [] | [_] => raise ValueError_not_enough_values
  | _ => raise ValueError_too_many_values
  end.

(** ** The callbacks *)

Definition get_pie_chart {dt : dtype} (entered_site : string)
  : M dt Plotly.figure :=
  if String.eqb entered_site "ALL" then
    df <- read_spacex_df ;;
    ret (Plotly.px_pie df class
           (fun r => Plotly.StrLabel (Launch_Site r))
           "Total Success Launches By Site")
  else
    df <- read_spacex_df ;;
    let filtered_df := filterBySite df entered_site in
    let site_df := Pandas.groupby_size (map class filtered_df) in
    ret (Plotly.px_pie site_df snd
           (fun cr => Plotly.IntLabel (fst cr))
           ("Total Success vs. Failure for Site " ++ entered_site)).

Definition update_scatter_chart {dt : dtype} (entered_site : string)
  (payload_range : list number) : M dt Plotly.figure :=
  lh <- unpack2 payload_range ;;
  let '(low, high) := lh in
  spacex <- read_spacex_df ;;
  let df := filterByPayloadRange spacex low high in
  if String.eqb entered_site "ALL" then
    ret (Plotly.px_scatter df "Payload vs. Outcome for All Sites")
  else
    let filtered_df := filterBySite df entered_site in
    ret (Plotly.px_scatter filtered_df
           ("Payload vs. Outcome for site " ++ entered_site)).

(** Running a callback: its outcome and the module state it leaves. *)
Definition outcome {dt : dtype} {A : Type} (m : M dt A) (g : globals dt)
  : result A := fst (m g).
Definition state_after {dt : dtype} {A : Type} (m : M dt A) (g : globals dt)
  : globals dt := snd (m g).

(** The table of the specification's scenario, its payload masses being
    integers. *)
Definition scenario_table : DataFrame int64 :=
  [ mkRow (dt := int64) "SiteA" 500 1 "v1";
    mkRow (dt := int64) "SiteA" 1500 0 "v1";
    mkRow (dt := int64) "SiteB" 3000 1 "v2" ].

(** A launch whose int64 payload mass, 2^53 + 1, is not a float64, and one
    whose payload mass, 2^53 + 3, lies halfway between two float64 values;
    the one-row tables of each. *)
Definition heavy_row : row int64 :=
  mkRow (dt := int64) "SiteA" 9007199254740993 1 "v1".

Definition halfway_row : row int64 :=
  mkRow (dt := int64) "SiteA" 9007199254740995 1 "v1".

Definition heavy_table : DataFrame int64 := [heavy_row].

Definition halfway_table : DataFrame int64 := [halfway_row].

(** Rows of a frame with outcome class 1, and the binary-class condition of
    the data model. *)
Definition success_count {dt : dtype} (df : DataFrame dt) : Z :=
  Z.of_nat (List.length (filter (fun r => class r =? 1) df)).

Definition binary_class {dt : dtype} (df : DataFrame dt) : Prop :=
  Forall (fun r => class r = 0 \/ class r = 1) df.

(** The comparisons of the payload filter keep the values they compare, at
    every row of the frame and for both bounds. *)
Definition range_exact {dt : dtype} (df : DataFrame dt) (low high : number)
  : Prop :=
  forall r, In r df ->
    compares_exactly (Payload_Mass r) low
    /\ compares_exactly (Payload_Mass r) high.

(** The callbacks the framework may run, and a session as a list of them. *)
Inductive call : Type :=
| PieCall (entered_site : string)
| ScatterCall (entered_site : string) (payload_range : list number).

Definition run_call {dt : dtype} (c : call) (g : globals dt) : globals dt :=
  match c with
  | PieCall s => state_after (get_pie_chart s) g
  | ScatterCall s pr => state_after (update_scatter_chart s pr) g
  end.

Definition run_calls {dt : dtype} (cs : list call) (g : globals dt)
  : globals dt :=
  fold_left (fun g' c => run_call c g') cs g.

(** Number of rows of a site with a given outcome class. *)
Definition site_class_count {dt : dtype} (df : DataFrame dt)
  (entered_site : string) (c : Z) : Z :=
  Z.of_nat (List.length
    (filter (fun r => class r =? c) (filterBySite df entered_site))).

Definition counts_total (site_df : list (Z * Z)) : Z :=
  fold_right (fun cr acc => snd cr + acc) 0 site_df.

(** Strictly ascending keys: the order in which [groupby] lists its groups. *)
Inductive ascending : list Z -> Prop :=
| asc_nil : ascending []
| asc_cons k ks :
    (forall k', In k' ks -> k < k') -> ascending ks -> ascending (k :: ks).

(** ** The dropdown options *)

(** One entry [{'label': ..., 'value': ...}] of the site dropdown. *)
Record dropdown_option : Type := mkOption {
  opt_label : string;
  opt_value : string
}.

(** [options_list]: the 'All Sites' entry, extended by one entry per launch
    site whose label and value are both the site. *)
Definition options_list {dt : dtype} (g : globals dt) : list dropdown_option :=
  mkOption "All Sites" "ALL"
  :: map (fun site => mkOption site site) (launch_sites g).

(** Reading the slices of a pie chart by label. *)
Fixpoint lookup_label (l : Plotly.label) (cd : list (Plotly.label * Z))
  : option Z :=
  match cd with
  | [] => None
  | (l', v) :: rest =>
      if Plotly.label_eqb l l' then Some v else lookup_label l rest
  end.

(** Sum of the values handed to a pie chart under the name [l], and whether
    the name occurs at all. *)
Definition label_sum (l : Plotly.label) (pts : list (Plotly.label * Z)) : Z :=
  fold_right
    (fun p acc => if Plotly.label_eqb l (fst p) then snd p + acc else acc)
    0 pts.

Definition label_occurs (l : Plotly.label) (pts : list (Plotly.label * Z))
  : bool :=
  existsb (fun p => Plotly.label_eqb l (fst p)) pts.

Definition Zsum (l : list Z) : Z := fold_right Z.add 0 l.

(** The points of a scatter chart and the slices of a pie chart a callback
    returned; none when it raised or returned the other kind of chart. *)
Definition figure_points (r : result Plotly.figure) : list Plotly.point :=
  match r with
  | Ok (Plotly.ScatterFigure pts _) => pts
  | _ => []
  end.

Definition figure_sectors (r : result Plotly.figure)
  : list (Plotly.label * Z) :=
  match r with
  | Ok (Plotly.PieFigure cd _) => cd
  | _ => []
  end.

(** The larger and the smaller of two bounds, by value. *)
Definition number_max (a b : number) : number :=
  if Qle_bool (number_value a) (number_value b) then b else a.
Definition number_min (a b : number) : number :=
  if Qle_bool (number_value a) (number_value b) then a else b.

(** * Properties *)

Local Open Scope list_scope.

(** ** Comparing a payload mass with a bound *)

Section Numbers.

Lemma round_f64_exact (z : Z) : Z.abs z <= 2 ^ 53 -> round_f64 z = z.
Proof.
  intros Hz. unfold round_f64.
  destruct (Z.eq_dec (Z.abs z) (2 ^ 53)) as [E|E].
  - destruct (Z.abs_spec z) as [[_ Ha]|[_ Ha]]; rewrite Ha in E.
    + subst z. vm_compute. reflexivity.
    + assert (z = - 2 ^ 53) by lia. subst z. vm_compute. reflexivity.
  - assert (Hlog : Z.log2 (Z.abs z) - 52 <= 0).
    { destruct (Z.eq_dec (Z.abs z) 0) as [E0|E0].
      - rewrite E0. simpl. lia.
      - assert (Hlt : Z.log2 (Z.abs z) < 53).
        { apply Z.log2_lt_pow2; lia. }
        lia. }
    apply Z.leb_le in Hlog. rewrite Hlog. reflexivity.
Qed.

Context {dt : dtype}.

Lemma ge_scalar_exact (c : cell dt) (b : number) :
  compares_exactly c b ->
  (ge_scalar c b = true <-> (number_value b <= cell_value c)%Q).
Proof.
  destruct dt, b as [k|f]; unfold cell_value; simpl; intros Hex;
    unfold to_float64; rewrite ?round_f64_exact by exact Hex;
    rewrite ?Qle_bool_iff, ?Z.leb_le, <- ?Zle_Qle; reflexivity.
Qed.

Lemma le_scalar_exact (c : cell dt) (b : number) :
  compares_exactly c b ->
  (le_scalar c b = true <-> (cell_value c <= number_value b)%Q).
Proof.
  destruct dt, b as [k|f]; unfold cell_value; simpl; intros Hex;
    unfold to_float64; rewrite ?round_f64_exact by exact Hex;
    rewrite ?Qle_bool_iff, ?Z.leb_le, <- ?Zle_Qle; reflexivity.
Qed.

(** A bound of the column's own kind is compared without a cast. *)
Lemma ge_scalar_own (c lo : cell dt) :
  ge_scalar c (cell_number lo) = cell_leb lo c.
Proof. destruct dt; reflexivity. Qed.

Lemma le_scalar_own (c hi : cell dt) :
  le_scalar c (cell_number hi) = cell_leb c hi.
Proof. destruct dt; reflexivity. Qed.

Lemma cell_leb_iff (a b : cell dt) :
  cell_leb a b = true <-> (cell_value a <= cell_value b)%Q.
Proof.
  destruct dt; unfold cell_value; simpl.
  - rewrite Z.leb_le, <- Zle_Qle. reflexivity.
  - apply Qle_bool_iff.
Qed.

Lemma payload_mask_exact (low high : number) (r : row dt) :
  compares_exactly (Payload_Mass r) low ->
  compares_exactly (Payload_Mass r) high ->
  (payload_mask low high r = true <->
   (number_value low <= cell_value (Payload_Mass r)
    /\ cell_value (Payload_Mass r) <= number_value high)%Q).
Proof.
  intros Hlow Hhigh. unfold payload_mask.
  rewrite andb_true_iff, (ge_scalar_exact _ _ Hlow),
    (le_scalar_exact _ _ Hhigh).
  reflexivity.
Qed.

End Numbers.

(** ** Row filters *)

Section Filters.

Context {dt : dtype}.
Variable df : DataFrame dt.

Lemma site_mask_true (s : string) (r : row dt) :
  site_mask s r = true <-> Launch_Site r = s.
Proof.
  unfold site_mask. apply String.eqb_eq.
Qed.

Lemma getitem_mask_twice (mask : row dt -> bool) :
  Pandas.getitem_mask (Pandas.getitem_mask df mask) mask
  = Pandas.getitem_mask df mask.
Proof.
  unfold Pandas.getitem_mask.
  induction df as [|r rest IH]; simpl; [reflexivity|].
  destruct (mask r) eqn:E; simpl.
  - rewrite E, IH. reflexivity.
  - exact IH.
Qed.

Lemma getitem_mask_swap (m1 m2 : row dt -> bool) :
  Pandas.getitem_mask (Pandas.getitem_mask df m1) m2
  = Pandas.getitem_mask (Pandas.getitem_mask df m2) m1.
Proof.
  unfold Pandas.getitem_mask.
  induction df as [|r rest IH]; simpl; [reflexivity|].
  destruct (m1 r) eqn:E1, (m2 r) eqn:E2; simpl;
    rewrite ?E1, ?E2, IH; reflexivity.
Qed.

Lemma getitem_mask_count (mask : row dt -> bool) (r : row dt) :
  mask r = true ->
  count_occ row_eq_dec (Pandas.getitem_mask df mask) r
  = count_occ row_eq_dec df r.
Proof.
  intros Hr. unfold Pandas.getitem_mask.
  induction df as [|a rest IH]; simpl; [reflexivity|].
  destruct (row_eq_dec a r) as [->|Hne].
  - rewrite Hr. simpl. destruct (row_eq_dec r r); congruence.
  - destruct (mask a); simpl; [|exact IH].
    destruct (row_eq_dec a r); congruence.
Qed.

Lemma getitem_mask_none (mask : row dt -> bool) :
  (forall r, In r df -> mask r = false) ->
  Pandas.getitem_mask df mask = [].
Proof.
  unfold Pandas.getitem_mask.
  induction df as [|a rest IH]; simpl; intros H; [reflexivity|].
  rewrite (H a (or_introl eq_refl)). apply IH.
  intros r Hr. apply H. right. exact Hr.
Qed.

(** C2, as the code has it: when the comparisons of the payload filter keep
    the values they compare (the column and the bound are both integers or
    both floats, or the integer that is cast to float64 is at most 2^53 in
    magnitude), then for [low <= high] [filterByPayloadRange] returns
    exactly the rows with [low <= payload mass <= high]: a row is in the
    result iff it is in the table and in the range, rows in the range keep
    their multiplicity, and a row whose payload mass equals [low] or equals
    [high] is kept. *)
Theorem filterByPayloadRange_exact (low high : number) :
  (number_value low <= number_value high)%Q ->
  range_exact df low high ->
  (forall r, In r (filterByPayloadRange df low high) <->
             In r df /\ (number_value low <= cell_value (Payload_Mass r)
                         /\ cell_value (Payload_Mass r) <= number_value high)%Q)
  /\ (forall r, (number_value low <= cell_value (Payload_Mass r)
                 /\ cell_value (Payload_Mass r) <= number_value high)%Q ->
        count_occ row_eq_dec (filterByPayloadRange df low high) r
        = count_occ row_eq_dec df r)
  /\ (forall r, In r df ->
        (cell_value (Payload_Mass r) == number_value low
         \/ cell_value (Payload_Mass r) == number_value high)%Q ->
        In r (filterByPayloadRange df low high)).
Proof.
  intros Hlh Hex.
  assert (Hin : forall r, In r (filterByPayloadRange df low high) <->
             In r df /\ (number_value low <= cell_value (Payload_Mass r)
                         /\ cell_value (Payload_Mass r) <= number_value high)%Q).
  { intros r. unfold filterByPayloadRange, Pandas.getitem_mask.
    rewrite filter_In. split; intros [Hr Hm]; (split; [exact Hr|]);
      destruct (Hex r Hr) as [H1 H2];
      apply (payload_mask_exact low high r H1 H2); exact Hm. }
  split; [exact Hin|split].
  - intros r Hr. destruct (in_dec row_eq_dec r df) as [Hdf|Hdf].
    + unfold filterByPayloadRange. apply getitem_mask_count.
      destruct (Hex r Hdf) as [H1 H2].
      apply (payload_mask_exact low high r H1 H2). exact Hr.
    + rewrite (proj1 (count_occ_not_In row_eq_dec df r) Hdf).
      apply count_occ_not_In. intros Hf. apply Hdf.
      apply Hin in Hf. tauto.
  - intros r Hdf Hend. apply Hin. split; [exact Hdf|].
    destruct Hend as [E|E]; rewrite E; split;
      solve [apply Qle_refl | exact Hlh].
Qed.

(** C3: [filterByPayloadRange] is idempotent: filtering the filtered rows
    again by the same bounds gives the filtered rows back (for every pair
    of bounds, so also whenever [low <= high]). *)
Theorem filterByPayloadRange_idempotent (low high : number) :
  filterByPayloadRange (filterByPayloadRange df low high) low high
  = filterByPayloadRange df low high.
Proof.
  unfold filterByPayloadRange. apply getitem_mask_twice.
Qed.

(** C5: the payload filter and the site filter commute. *)
Theorem filterBySite_filterByPayloadRange_commute
  (entered_site : string) (low high : number) :
  filterBySite (filterByPayloadRange df low high) entered_site
  = filterByPayloadRange (filterBySite df entered_site) low high.
Proof.
  unfold filterBySite, filterByPayloadRange. apply getitem_mask_swap.
Qed.

Lemma filterByPayloadRange_inverted (low high : number) :
  (number_value high < number_value low)%Q ->
  range_exact df low high ->
  filterByPayloadRange df low high = [].
Proof.
  intros Hinv Hex. unfold filterByPayloadRange.
  apply getitem_mask_none. intros r Hr.
  destruct (payload_mask low high r) eqn:E; [|reflexivity].
  destruct (Hex r Hr) as [H1 H2].
  apply (payload_mask_exact low high r H1 H2) in E. destruct E as [E1 E2].
  exfalso. apply (Qlt_not_le _ _ Hinv).
  apply Qle_trans with (cell_value (Payload_Mass r)); assumption.
Qed.

End Filters.

Lemma scenario_range_exact (low high : number) :
  range_exact scenario_table low high.
Proof.
  assert (Hsmall : forall (z : Z) (b : number),
            Z.abs z <= 2 ^ 53 -> compares_exactly (dt := int64) z b).
  { intros z [k|f] Hz; simpl; [exact I|exact Hz]. }
  intros r Hr. simpl in Hr.
  destruct Hr as [<-|[<-|[<-|[]]]]; split; apply Hsmall; simpl;
    vm_compute; discriminate.
Qed.

Lemma filterByPayloadRange_exact_witness :
  (number_value (PyFloat (500 # 1)) <= number_value (PyInt 3000))%Q
  /\ range_exact scenario_table (PyFloat (500 # 1)) (PyInt 3000)
  /\ In (mkRow (dt := int64) "SiteB" 3000 1 "v2")
        (filterByPayloadRange scenario_table (PyFloat (500 # 1)) (PyInt 3000))
  /\ In (mkRow (dt := int64) "SiteA" 500 1 "v1")
        (filterByPayloadRange scenario_table (PyFloat (500 # 1)) (PyInt 3000)).
Proof.
  assert (Hlh : (number_value (PyFloat (500 # 1))
                 <= number_value (PyInt 3000))%Q)
    by (vm_compute; discriminate).
  pose proof (scenario_range_exact (PyFloat (500 # 1)) (PyInt 3000)) as Hex.
  destruct (filterByPayloadRange_exact scenario_table
              (PyFloat (500 # 1)) (PyInt 3000) Hlh Hex)
    as (_ & _ & Hends).
  split; [exact Hlh|split; [exact Hex|split]].
  - apply Hends; [simpl; auto|right; reflexivity].
  - apply Hends; [simpl; auto|left; reflexivity].
Defined.

(** C2, as the specification words it, fails: the int64 payload mass
    2^53 + 1 is cast to float64 for the comparison with the float bound
    2^53 and rounds to it, so that the row is returned for the range
    [0, 2^53.0] although its payload mass is above the upper bound. *)
Lemma filterByPayloadRange_rounds_payload :
  (number_value (PyInt 0)
   <= number_value (PyFloat (9007199254740992 # 1)))%Q
  /\ In heavy_row
        (filterByPayloadRange heavy_table
           (PyInt 0) (PyFloat (9007199254740992 # 1)))
  /\ ~ (cell_value (Payload_Mass heavy_row)
        <= number_value (PyFloat (9007199254740992 # 1)))%Q.
Proof.
  split; [vm_compute; discriminate|split].
  - vm_compute. left. reflexivity.
  - vm_compute. intros H. apply H. reflexivity.
Qed.

(** ** Grouping by outcome class *)

Section GroupBy.

Import Pandas.

Lemma insert_key_In (k a : Z) (ks : list Z) :
  In k (insert_key a ks) <-> k = a \/ In k ks.
Proof.
  induction ks as [|k' rest IH]; simpl.
  - intuition.
  - destruct (a <? k') eqn:Hlt; [simpl; intuition|].
    destruct (a =? k') eqn:Heq.
    + apply Z.eqb_eq in Heq. subst k'. simpl. intuition.
    + simpl. rewrite IH. intuition.
Qed.

Lemma group_keys_In (k : Z) (col : list Z) :
  In k (group_keys col) <-> In k col.
Proof.
  induction col as [|a rest IH]; simpl; [reflexivity|].
  rewrite insert_key_In, IH. intuition.
Qed.

Lemma insert_key_ascending (a : Z) (ks : list Z) :
  ascending ks -> ascending (insert_key a ks).
Proof.
  induction 1 as [|k ks Hlow Hks IH]; simpl.
  - constructor; [intros ? []|constructor].
  - destruct (a <? k) eqn:Hlt.
    + apply Z.ltb_lt in Hlt. constructor; [|constructor; assumption].
      intros k' [<-|Hin]; [exact Hlt|].
      specialize (Hlow _ Hin). lia.
    + destruct (a =? k) eqn:Heq; [constructor; assumption|].
      apply Z.ltb_ge in Hlt. apply Z.eqb_neq in Heq.
      constructor; [|exact IH].
      intros k' Hin. apply insert_key_In in Hin.
      destruct Hin as [->|Hin]; [lia|auto].
Qed.

Lemma group_keys_ascending (col : list Z) : ascending (group_keys col).
Proof.
  induction col as [|a rest IH]; simpl.
  - constructor.
  - apply insert_key_ascending. exact IH.
Qed.

Lemma ascending_NoDup (ks : list Z) : ascending ks -> NoDup ks.
Proof.
  induction 1 as [|k ks Hlow _ IH]; constructor; [|exact IH].
  intros Hin. specialize (Hlow _ Hin). lia.
Qed.

Lemma lookup_class_keys (f : Z -> Z) (c : Z) (ks : list Z) :
  lookup_class c (map (fun k => (k, f k)) ks)
  = if in_dec Z.eq_dec c ks then Some (f c) else None.
Proof.
  induction ks as [|k rest IH]; simpl; [reflexivity|].
  destruct (c =? k) eqn:E.
  - apply Z.eqb_eq in E. subst k.
    destruct (Z.eq_dec c c); [reflexivity|congruence].
  - apply Z.eqb_neq in E. rewrite IH.
    destruct (Z.eq_dec k c); [congruence|].
    destruct (in_dec Z.eq_dec c rest); reflexivity.
Qed.

Lemma lookup_class_groupby_size (c : Z) (col : list Z) :
  lookup_class c (groupby_size col)
  = if in_dec Z.eq_dec c col then Some (group_size col c) else None.
Proof.
  unfold groupby_size. rewrite lookup_class_keys.
  destruct (in_dec Z.eq_dec c (group_keys col)) as [H|H],
           (in_dec Z.eq_dec c col) as [H'|H']; try reflexivity;
    rewrite group_keys_In in H; contradiction.
Qed.

Lemma counts_total_keys (f : Z -> nat) (ks : list Z) :
  counts_total (map (fun k => (k, Z.of_nat (f k))) ks)
  = Z.of_nat (list_sum (map f ks)).
Proof.
  induction ks as [|k rest IH]; simpl; [reflexivity|].
  rewrite IH. lia.
Qed.

(** Summing the group sizes over distinct keys that cover the column counts
    every entry once. *)
Lemma group_sizes_cover (ks col : list Z) :
  NoDup ks -> (forall a, In a col -> In a ks) ->
  list_sum (map (count_occ Z.eq_dec col) ks) = List.length col.
Proof.
  intros Hnd. induction col as [|a rest IH]; intros Hcov.
  - clear. induction ks as [|k ks IHks]; simpl; auto.
  - assert (Hsplit : forall l,
      list_sum (map (count_occ Z.eq_dec (a :: rest)) l)
      = (count_occ Z.eq_dec l a + list_sum (map (count_occ Z.eq_dec rest) l))%nat).
    { induction l as [|k l IHl]; simpl; [reflexivity|].
      simpl in IHl. rewrite IHl.
      destruct (Z.eq_dec a k), (Z.eq_dec k a); try congruence; lia. }
    rewrite Hsplit, IH by (intros; apply Hcov; now right).
    assert (Ha : In a ks) by (apply Hcov; now left).
    rewrite (proj1 (NoDup_count_occ' Z.eq_dec ks) Hnd a Ha).
    reflexivity.
Qed.

Lemma counts_total_groupby_size (col : list Z) :
  counts_total (groupby_size col) = Z.of_nat (List.length col).
Proof.
  unfold groupby_size, group_size.
  rewrite (counts_total_keys (count_occ Z.eq_dec col)).
  rewrite group_sizes_cover; [reflexivity| |].
  - apply ascending_NoDup, group_keys_ascending.
  - intros a. apply group_keys_In.
Qed.

Lemma count_occ_filter_length {dt : dtype} (col : list (row dt)) (c : Z) :
  count_occ Z.eq_dec (map class col) c
  = List.length (filter (fun r => class r =? c) col).
Proof.
  induction col as [|r rest IH]; simpl; [reflexivity|].
  destruct (Z.eq_dec (class r) c) as [E|E].
  - apply Z.eqb_eq in E. rewrite E. simpl. now rewrite IH.
  - apply Z.eqb_neq in E. now rewrite E.
Qed.

End GroupBy.

(** ** Pie sectors *)

Section PieSectors.

Import Plotly.

Lemma label_eqb_eq (a b : label) : label_eqb a b = true <-> a = b.
Proof.
  destruct a as [s|n], b as [t|m]; simpl;
    try (split; intros H; discriminate H).
  - rewrite String.eqb_eq. split; congruence.
  - rewrite Z.eqb_eq. split; congruence.
Qed.

Lemma sectors_total_app (cd cd' : list (label * Z)) :
  sectors_total (cd ++ cd') = sectors_total cd + sectors_total cd'.
Proof.
  induction cd as [|s rest IH]; simpl; [reflexivity|].
  rewrite IH. lia.
Qed.

Lemma sectors_total_add (l : label) (v : Z) (cd : list (label * Z)) :
  sectors_total (add_to_sector l v cd) = sectors_total cd + v.
Proof.
  induction cd as [|[l' v'] rest IH]; simpl; [lia|].
  destruct (label_eqb l l'); simpl; [lia|].
  rewrite IH. lia.
Qed.

Lemma add_to_sector_nonneg (l : label) (v : Z) (cd : list (label * Z)) :
  0 <= v -> Forall (fun s => 0 <= snd s) cd ->
  Forall (fun s => 0 <= snd s) (add_to_sector l v cd).
Proof.
  intros Hv. induction 1 as [|[l' v'] rest Hs Hrest IH]; simpl.
  - constructor; [exact Hv|constructor].
  - simpl in Hs. destruct (label_eqb l l'); constructor; simpl;
      solve [lia | assumption].
Qed.

Lemma fold_add_total (pts cd : list (label * Z)) :
  sectors_total
    (fold_left (fun cd p => add_to_sector (fst p) (snd p) cd) pts cd)
  = sectors_total cd + sectors_total pts.
Proof.
  revert cd. induction pts as [|p rest IH]; intros cd; simpl; [lia|].
  rewrite IH, sectors_total_add. lia.
Qed.

Lemma fold_add_nonneg (pts cd : list (label * Z)) :
  Forall (fun s => 0 <= snd s) pts -> Forall (fun s => 0 <= snd s) cd ->
  Forall (fun s => 0 <= snd s)
    (fold_left (fun cd p => add_to_sector (fst p) (snd p) cd) pts cd).
Proof.
  intros Hpts. revert cd.
  induction Hpts as [|p rest Hp _ IH]; intros cd Hcd; simpl; [exact Hcd|].
  apply IH. apply add_to_sector_nonneg; assumption.
Qed.

Lemma positive_sectors_total (cd : list (label * Z)) :
  Forall (fun s => 0 <= snd s) cd ->
  sectors_total (filter (fun s => 0 <? snd s) cd) = sectors_total cd.
Proof.
  induction 1 as [|s rest Hs _ IH]; simpl; [reflexivity|].
  destruct (0 <? snd s) eqn:E; simpl; rewrite IH; [reflexivity|].
  apply Z.ltb_ge in E. lia.
Qed.

(** The slices of a pie add up to the sum of the values handed to it, when
    no value is negative. *)
Lemma pie_sectors_total (pts : list (label * Z)) :
  Forall (fun s => 0 <= snd s) pts ->
  sectors_total (pie_sectors pts) = sectors_total pts.
Proof.
  intros Hpts. unfold pie_sectors, sum_by_label.
  rewrite positive_sectors_total, fold_add_total; [reflexivity|].
  apply fold_add_nonneg; [exact Hpts|constructor].
Qed.

Lemma add_to_sector_fresh (l : label) (v : Z) (cd : list (label * Z)) :
  ~ In l (map fst cd) -> add_to_sector l v cd = cd ++ [(l, v)].
Proof.
  induction cd as [|[l' v'] rest IH]; simpl; intros Hfresh; [reflexivity|].
  destruct (label_eqb l l') eqn:E.
  - apply label_eqb_eq in E. subst l'. exfalso. apply Hfresh. now left.
  - rewrite IH; [reflexivity|]. intros Hin. apply Hfresh. now right.
Qed.

Lemma fold_add_distinct (pts cd : list (label * Z)) :
  NoDup (map fst (cd ++ pts)) ->
  fold_left (fun cd p => add_to_sector (fst p) (snd p) cd) pts cd = cd ++ pts.
Proof.
  revert cd. induction pts as [|[l v] rest IH]; intros cd Hnd; simpl.
  - now rewrite app_nil_r.
  - rewrite add_to_sector_fresh.
    + rewrite IH; rewrite <- app_assoc; [reflexivity|exact Hnd].
    + rewrite map_app in Hnd. simpl in Hnd.
      apply NoDup_remove_2 in Hnd. intros Hin. apply Hnd.
      apply in_or_app. now left.
Qed.

(** Rows with pairwise distinct names and positive values are drawn as they
    are: one slice each, in row order. *)
Lemma pie_sectors_distinct (pts : list (label * Z)) :
  NoDup (map fst pts) -> Forall (fun s => 0 < snd s) pts ->
  pie_sectors pts = pts.
Proof.
  intros Hnd Hpos. unfold pie_sectors, sum_by_label.
  rewrite fold_add_distinct by exact Hnd. simpl.
  induction Hpos as [|s rest Hs _ IH]; simpl; [reflexivity|].
  apply Z.ltb_lt in Hs. rewrite Hs. f_equal. apply IH.
  now inversion Hnd.
Qed.

Lemma groupby_size_sectors (col : list Z) :
  pie_sectors
    (map (fun cr : Z * Z => (IntLabel (fst cr), snd cr))
         (Pandas.groupby_size col))
  = map (fun cr : Z * Z => (IntLabel (fst cr), snd cr))
        (Pandas.groupby_size col).
Proof.
  apply pie_sectors_distinct.
  - rewrite map_map. simpl. unfold Pandas.groupby_size.
    rewrite map_map. simpl.
    apply (Injective_map_NoDup (f := fun k => IntLabel k)).
    + intros a b H. now inversion H.
    + apply ascending_NoDup, group_keys_ascending.
  - apply Forall_forall. intros s Hs.
    apply in_map_iff in Hs. destruct Hs as [[k n] [<- Hin]]. simpl.
    unfold Pandas.groupby_size in Hin. apply in_map_iff in Hin.
    destruct Hin as [k' [E Hk]]. inversion E; subst k' n.
    rewrite group_keys_In in Hk.
    rewrite (count_occ_In Z.eq_dec) in Hk.
    unfold Pandas.group_size. lia.
Qed.

End PieSectors.


(** ** The callbacks *)

Section Callbacks.

Import Plotly.

Lemma get_pie_chart_ALL {dt : dtype} (g : globals dt) :
  get_pie_chart "ALL" g
  = (Ok (PieFigure (siteSuccessTotals (spacex_df g))
           "Total Success Launches By Site"), g).
Proof. reflexivity. Qed.

Lemma get_pie_chart_site {dt : dtype} (entered_site : string)
  (g : globals dt) :
  entered_site <> "ALL"%string ->
  get_pie_chart entered_site g
  = (Ok (PieFigure
           (map (fun cr : Z * Z => (IntLabel (fst cr), snd cr))
                (siteOutcomeCounts (spacex_df g) entered_site))
           ("Total Success vs. Failure for Site " ++ entered_site)%string),
     g).
Proof.
  intros Hsite. apply String.eqb_neq in Hsite.
  unfold get_pie_chart. rewrite Hsite.
  unfold bind, read_spacex_df, ret, px_pie, siteOutcomeCounts. simpl.
  rewrite groupby_size_sectors. reflexivity.
Qed.

Lemma update_scatter_chart_ALL {dt : dtype} (low high : number)
  (g : globals dt) :
  update_scatter_chart "ALL" [low; high] g
  = (Ok (px_scatter (filterByPayloadRange (spacex_df g) low high)
           "Payload vs. Outcome for All Sites"), g).
Proof. reflexivity. Qed.

Lemma update_scatter_chart_site {dt : dtype} (entered_site : string)
  (low high : number) (g : globals dt) :
  entered_site <> "ALL"%string ->
  update_scatter_chart entered_site [low; high] g
  = (Ok (px_scatter
           (filterBySite (filterByPayloadRange (spacex_df g) low high)
                         entered_site)
           ("Payload vs. Outcome for site " ++ entered_site)%string), g).
Proof.
  intros Hsite. apply String.eqb_neq in Hsite.
  unfold update_scatter_chart, bind, unpack2, read_spacex_df, ret. simpl.
  rewrite Hsite. reflexivity.
Qed.

Lemma get_pie_chart_state {dt : dtype} (entered_site : string)
  (g : globals dt) :
  state_after (get_pie_chart entered_site) g = g.
Proof.
  unfold state_after, get_pie_chart.
  destruct (String.eqb entered_site "ALL"); reflexivity.
Qed.

Lemma update_scatter_chart_state {dt : dtype} (entered_site : string)
  (payload_range : list number) (g : globals dt) :
  state_after (update_scatter_chart entered_site payload_range) g = g.
Proof.
  unfold state_after, update_scatter_chart, bind.
  destruct payload_range as [|low [|high [|extra rest]]]; simpl;
    try reflexivity.
  destruct (String.eqb entered_site "ALL"); reflexivity.
Qed.

Lemma run_calls_state {dt : dtype} (cs : list call) (g : globals dt) :
  run_calls cs g = g.
Proof.
  unfold run_calls. induction cs as [|c rest IH]; simpl; [reflexivity|].
  destruct c as [s|s pr]; simpl.
  - rewrite get_pie_chart_state. exact IH.
  - rewrite update_scatter_chart_state. exact IH.
Qed.

Lemma filterBySite_absent {dt : dtype} (df : DataFrame dt)
  (entered_site : string) :
  (forall r, In r df -> Launch_Site r <> entered_site) ->
  filterBySite df entered_site = [].
Proof.
  intros Habs. unfold filterBySite. apply getitem_mask_none.
  intros r Hr. unfold site_mask. apply String.eqb_neq. auto.
Qed.

Lemma class_sum_binary {dt : dtype} (df : DataFrame dt) :
  binary_class df ->
  sectors_total (map (fun r => (StrLabel (Launch_Site r), class r)) df)
  = success_count df.
Proof.
  unfold success_count.
  induction 1 as [|r rest Hr _ IH]; [reflexivity|].
  cbn [map sectors_total fold_right filter snd].
  fold (sectors_total (map (fun r => (StrLabel (Launch_Site r), class r)) rest)).
  rewrite IH. destruct Hr as [E|E]; rewrite E; cbn [Z.eqb Pos.eqb List.length].
  - lia.
  - rewrite Nat2Z.inj_succ. lia.
Qed.

(** C1, as the code has it: [siteOutcomeCounts] maps a class to the number
    of rows of the site with that class when there is such a row, and has
    no entry for a class without rows (so a class is present iff a row of
    the site has it); the counts add up to the number of rows of the
    site. *)
Theorem siteOutcomeCounts_occurring_classes
  {dt : dtype} (df : DataFrame dt) (entered_site : string) :
  (forall c,
     lookup_class c (siteOutcomeCounts df entered_site)
     = if site_class_count df entered_site c =? 0 then None
       else Some (site_class_count df entered_site c))
  /\ (forall c,
        class_present c (siteOutcomeCounts df entered_site) <->
        exists r, In r df /\ Launch_Site r = entered_site /\ class r = c)
  /\ counts_total (siteOutcomeCounts df entered_site)
     = Z.of_nat (List.length (filterBySite df entered_site)).
Proof.
  assert (Hlookup : forall c,
     lookup_class c (siteOutcomeCounts df entered_site)
     = if site_class_count df entered_site c =? 0 then None
       else Some (site_class_count df entered_site c)).
  { intros c. unfold siteOutcomeCounts, site_class_count.
    rewrite lookup_class_groupby_size. unfold Pandas.group_size.
    rewrite <- count_occ_filter_length.
    destruct (in_dec Z.eq_dec c (map class (filterBySite df entered_site)))
      as [Hin|Hout].
    - rewrite (count_occ_In Z.eq_dec) in Hin.
      destruct (Z.eqb_spec
        (Z.of_nat (count_occ Z.eq_dec
           (map class (filterBySite df entered_site)) c)) 0);
        [lia|reflexivity].
    - rewrite (count_occ_not_In Z.eq_dec) in Hout. rewrite Hout.
      reflexivity. }
  split; [exact Hlookup|split].
  - intros c. unfold class_present, siteOutcomeCounts.
    rewrite lookup_class_groupby_size.
    destruct (in_dec Z.eq_dec c (map class (filterBySite df entered_site)))
      as [Hin|Hout].
    + split; [intros _|intros _; eexists; reflexivity].
      apply in_map_iff in Hin. destruct Hin as [r [Hc Hr]].
      unfold filterBySite, Pandas.getitem_mask in Hr.
      apply filter_In in Hr. destruct Hr as [Hr Hs].
      apply site_mask_true in Hs. exists r. auto.
    + split; [intros [n Hn]; discriminate Hn|].
      intros [r (Hr & Hs & Hc)]. exfalso. apply Hout.
      apply in_map_iff. exists r. split; [exact Hc|].
      unfold filterBySite, Pandas.getitem_mask.
      apply filter_In. split; [exact Hr|].
      apply site_mask_true. exact Hs.
  - unfold siteOutcomeCounts.
    rewrite counts_total_groupby_size, length_map. reflexivity.
Qed.

(** C1, as the specification words it, fails: site SiteB of the scenario
    table has one successful launch and no failed one, and its mapping is
    the single entry for class 1; class 0 is not present with value 0. *)
Lemma siteOutcomeCounts_class_absent :
  siteOutcomeCounts scenario_table "SiteB" = [(1, 1)]
  /\ ~ (class_present 0 (siteOutcomeCounts scenario_table "SiteB")
        /\ class_present 1 (siteOutcomeCounts scenario_table "SiteB")).
Proof.
  split; [reflexivity|].
  intros [[n Hn] _]. vm_compute in Hn. discriminate Hn.
Qed.

(** C4: with binary outcome classes, the 'ALL' pie chart shows the per-site
    totals [siteSuccessTotals], and these add up to the number of rows of
    the table whose class is 1. *)
Theorem siteSuccessTotals_sum {dt : dtype} (g : globals dt) :
  binary_class (spacex_df g) ->
  outcome (get_pie_chart "ALL") g
  = Ok (PieFigure (siteSuccessTotals (spacex_df g))
          "Total Success Launches By Site")
  /\ sectors_total (siteSuccessTotals (spacex_df g))
     = success_count (spacex_df g).
Proof.
  intros Hbin. split; [reflexivity|].
  unfold siteSuccessTotals. rewrite pie_sectors_total.
  - apply class_sum_binary. exact Hbin.
  - apply Forall_forall. intros s Hs. apply in_map_iff in Hs.
    destruct Hs as [r [<- Hr]]. simpl.
    unfold binary_class in Hbin. rewrite Forall_forall in Hbin.
    destruct (Hbin r Hr) as [E|E]; rewrite E; lia.
Qed.

Lemma siteSuccessTotals_sum_witness :
  binary_class (spacex_df (load scenario_table))
  /\ sectors_total (siteSuccessTotals (spacex_df (load scenario_table)))
     = success_count (spacex_df (load scenario_table)).
Proof.
  assert (Hbin : binary_class (spacex_df (load scenario_table))).
  { unfold binary_class. simpl.
    repeat (apply Forall_cons; [simpl; auto|]). apply Forall_nil. }
  split; [exact Hbin|].
  exact (proj2 (siteSuccessTotals_sum (load scenario_table) Hbin)).
Defined.

(** C6: the scenario of the specification.  On the three-row table the
    'ALL' pie chart shows SiteA:1 and SiteB:1, the pie chart of SiteA shows
    class 0 once and class 1 once, and the scatter chart for the payload
    range [0, 1000] and 'ALL' is drawn from the single row
    (SiteA, 500, 1, v1). *)
Theorem scenario_charts :
  siteSuccessTotals scenario_table
  = [(StrLabel "SiteA", 1); (StrLabel "SiteB", 1)]
  /\ outcome (get_pie_chart "ALL") (load scenario_table)
     = Ok (PieFigure [(StrLabel "SiteA", 1); (StrLabel "SiteB", 1)]
             "Total Success Launches By Site")
  /\ siteOutcomeCounts scenario_table "SiteA" = [(0, 1); (1, 1)]
  /\ outcome (get_pie_chart "SiteA") (load scenario_table)
     = Ok (PieFigure [(IntLabel 0, 1); (IntLabel 1, 1)]
             "Total Success vs. Failure for Site SiteA")
  /\ filterByPayloadRange scenario_table (PyInt 0) (PyInt 1000)
     = [mkRow (dt := int64) "SiteA" 500 1 "v1"]
  /\ outcome (update_scatter_chart "ALL" [PyInt 0; PyInt 1000])
       (load scenario_table)
     = Ok (px_scatter [mkRow (dt := int64) "SiteA" 500 1 "v1"]
             "Payload vs. Outcome for All Sites")
  /\ px_scatter [mkRow (dt := int64) "SiteA" 500 1 "v1"]
       "Payload vs. Outcome for All Sites"
     = ScatterFigure [mkPoint (PyInt 500) 1 "v1"]
         "Payload vs. Outcome for All Sites".
Proof.
  repeat split; vm_compute; reflexivity.
Qed.

(** C7: neither callback raises, whatever site is selected (the scatter
    callback being given its two bounds); and for a site other than 'ALL'
    that no row of the table has, the pie chart has no slice and the
    scatter chart no point. *)
Theorem unknown_site_empty {dt : dtype} (g : globals dt)
  (entered_site : string) :
  (exists fig, outcome (get_pie_chart entered_site) g = Ok fig)
  /\ (forall low high, exists fig,
        outcome (update_scatter_chart entered_site [low; high]) g = Ok fig)
  /\ (entered_site <> "ALL"%string ->
      (forall r, In r (spacex_df g) -> Launch_Site r <> entered_site) ->
      siteOutcomeCounts (spacex_df g) entered_site = []
      /\ outcome (get_pie_chart entered_site) g
         = Ok (PieFigure []
                 ("Total Success vs. Failure for Site " ++ entered_site)%string)
      /\ forall low high,
           outcome (update_scatter_chart entered_site [low; high]) g
           = Ok (ScatterFigure []
                   ("Payload vs. Outcome for site " ++ entered_site)%string)).
Proof.
  split; [|split].
  - unfold outcome, get_pie_chart.
    destruct (String.eqb entered_site "ALL"); eexists; reflexivity.
  - intros low high. unfold outcome, update_scatter_chart, bind. simpl.
    destruct (String.eqb entered_site "ALL"); eexists; reflexivity.
  - intros Hsite Habs.
    assert (Hnone : siteOutcomeCounts (spacex_df g) entered_site = []).
    { unfold siteOutcomeCounts.
      rewrite filterBySite_absent by exact Habs. reflexivity. }
    split; [exact Hnone|split].
    + unfold outcome. rewrite get_pie_chart_site by exact Hsite.
      rewrite Hnone. reflexivity.
    + intros low high. unfold outcome.
      rewrite update_scatter_chart_site by exact Hsite.
      rewrite filterBySite_absent; [reflexivity|].
      intros r Hr. apply Habs.
      unfold filterByPayloadRange, Pandas.getitem_mask in Hr.
      apply filter_In in Hr. tauto.
Qed.

Lemma unknown_site_empty_witness :
  "SiteC"%string <> "ALL"%string
  /\ (forall r, In r (spacex_df (load scenario_table)) ->
                Launch_Site r <> "SiteC"%string)
  /\ outcome (get_pie_chart "SiteC") (load scenario_table)
     = Ok (PieFigure [] "Total Success vs. Failure for Site SiteC").
Proof.
  assert (Hsite : "SiteC"%string <> "ALL"%string) by discriminate.
  assert (Habs : forall r, In r (spacex_df (load scenario_table)) ->
                           Launch_Site r <> "SiteC"%string).
  { simpl. intros r [<-|[<-|[<-|[]]]]; simpl; discriminate. }
  split; [exact Hsite|split; [exact Habs|]].
  destruct (unknown_site_empty (load scenario_table) "SiteC")
    as (_ & _ & Hempty).
  destruct (Hempty Hsite Habs) as (_ & Hpie & _).
  exact Hpie.
Defined.

(** C8: the pie chart is a function of the selected site and the table
    only.  Selecting 'ALL', then any site, then 'ALL' again shows the same
    per-site totals as the first time; and after any session of callback
    runs, a selection is answered as it would have been at the start. *)
Theorem get_pie_chart_deterministic {dt : dtype} (g : globals dt)
  (entered_site : string) :
  outcome (get_pie_chart "ALL")
    (state_after (get_pie_chart entered_site)
       (state_after (get_pie_chart "ALL") g))
  = outcome (get_pie_chart "ALL") g
  /\ outcome (get_pie_chart "ALL") g
     = Ok (PieFigure (siteSuccessTotals (spacex_df g))
             "Total Success Launches By Site")
  /\ forall cs : list call,
       outcome (get_pie_chart entered_site) (run_calls cs g)
       = outcome (get_pie_chart entered_site) g.
Proof.
  split; [|split].
  - rewrite !get_pie_chart_state. reflexivity.
  - reflexivity.
  - intros cs. rewrite run_calls_state. reflexivity.
Qed.

(** C9: no callback changes the module state: after [get_pie_chart] on any
    site, after [update_scatter_chart] on any site and any payload range
    (also one that makes the unpacking raise), and after any session of
    callback runs, the table and the other globals are what they were. *)
Theorem callbacks_leave_table {dt : dtype} (g : globals dt) :
  (forall entered_site, state_after (get_pie_chart entered_site) g = g)
  /\ (forall entered_site payload_range,
        state_after (update_scatter_chart entered_site payload_range) g = g)
  /\ (forall cs, spacex_df (run_calls cs g) = spacex_df g).
Proof.
  split; [|split].
  - intros s. apply get_pie_chart_state.
  - intros s pr. apply update_scatter_chart_state.
  - intros cs. rewrite run_calls_state. reflexivity.
Qed.

(** C10, as the code has it: when the comparisons of the payload filter
    keep the values they compare (see C2), then with inverted bounds
    ([high < low]) no row passes the payload filter, and the scatter
    callback returns a chart without points, for every site, instead of
    raising. *)
Theorem inverted_range_empty {dt : dtype} (g : globals dt)
  (low high : number) :
  (number_value high < number_value low)%Q ->
  range_exact (spacex_df g) low high ->
  filterByPayloadRange (spacex_df g) low high = []
  /\ forall entered_site : string,
       exists title,
         update_scatter_chart entered_site [low; high] g
         = (Ok (ScatterFigure [] title), g).
Proof.
  intros Hinv Hex.
  pose proof (filterByPayloadRange_inverted (spacex_df g) low high Hinv Hex)
    as Hnone.
  split; [exact Hnone|].
  intros s. unfold update_scatter_chart, bind, unpack2, read_spacex_df, ret.
  simpl. rewrite Hnone.
  destruct (String.eqb s "ALL"); eexists; reflexivity.
Qed.

Lemma inverted_range_empty_witness :
  (number_value (PyInt 0) < number_value (PyFloat (1000 # 1)))%Q
  /\ range_exact (spacex_df (load scenario_table))
       (PyFloat (1000 # 1)) (PyInt 0)
  /\ filterByPayloadRange (spacex_df (load scenario_table))
       (PyFloat (1000 # 1)) (PyInt 0) = [].
Proof.
  assert (Hinv : (number_value (PyInt 0)
                  < number_value (PyFloat (1000 # 1)))%Q) by reflexivity.
  pose proof (scenario_range_exact (PyFloat (1000 # 1)) (PyInt 0)) as Hex.
  split; [exact Hinv|split; [exact Hex|]].
  exact (proj1 (inverted_range_empty (load scenario_table)
                  (PyFloat (1000 # 1)) (PyInt 0) Hinv Hex)).
Defined.

(** C10, as it is worded, fails: the bounds [2^53 + 4] (a float) and
    [2^53 + 3] (an integer) are inverted, yet the int64 payload mass
    2^53 + 3 passes both comparisons, the first after its cast to float64
    has rounded it up to 2^53 + 4, and the scatter chart has a point. *)
Lemma inverted_range_keeps_row :
  (number_value (PyInt 9007199254740995)
   < number_value (PyFloat (9007199254740996 # 1)))%Q
  /\ filterByPayloadRange halfway_table
       (PyFloat (9007199254740996 # 1)) (PyInt 9007199254740995)
     = [halfway_row]
  /\ figure_points
       (outcome (update_scatter_chart "ALL"
                   [PyFloat (9007199254740996 # 1); PyInt 9007199254740995])
                (load halfway_table))
     = [mkPoint (PyInt 9007199254740995) 1 "v1"].
Proof.
  repeat split; vm_compute; reflexivity.
Qed.

End Callbacks.
(** ** The values computed when the script starts *)

Section Loader.

Import Pandas.

Context {dt : dtype}.

Lemma cell_min_le (a b : cell dt) :
  (cell_value (cell_min a b) <= cell_value a
   /\ cell_value (cell_min a b) <= cell_value b)%Q.
Proof.
  unfold cell_min. destruct (cell_leb a b) eqn:E.
  - apply cell_leb_iff in E. split; [apply Qle_refl|exact E].
  - split; [|apply Qle_refl].
    apply Qlt_le_weak, Qnot_le_lt. intros H.
    apply cell_leb_iff in H. congruence.
Qed.

Lemma cell_max_ge (a b : cell dt) :
  (cell_value a <= cell_value (cell_max a b)
   /\ cell_value b <= cell_value (cell_max a b))%Q.
Proof.
  unfold cell_max. destruct (cell_leb a b) eqn:E.
  - apply cell_leb_iff in E. split; [exact E|apply Qle_refl].
  - split; [apply Qle_refl|].
    apply Qlt_le_weak, Qnot_le_lt. intros H.
    apply cell_leb_iff in H. congruence.
Qed.

Lemma fold_cell_min_le_init (rest : list (cell dt)) (q : cell dt) :
  (cell_value (fold_left cell_min rest q) <= cell_value q)%Q.
Proof.
  revert q. induction rest as [|a rest IH]; intros q; simpl.
  - apply Qle_refl.
  - apply Qle_trans with (cell_value (cell_min q a));
      [apply IH|apply cell_min_le].
Qed.

Lemma fold_cell_min_le_in (rest : list (cell dt)) (q x : cell dt) :
  In x rest -> (cell_value (fold_left cell_min rest q) <= cell_value x)%Q.
Proof.
  revert q. induction rest as [|a rest IH]; intros q Hx; simpl.
  - destruct Hx.
  - destruct Hx as [E|Hin]; [|apply IH; exact Hin].
    subst a. apply Qle_trans with (cell_value (cell_min q x));
      [apply fold_cell_min_le_init|apply cell_min_le].
Qed.

Lemma fold_cell_max_ge_init (rest : list (cell dt)) (q : cell dt) :
  (cell_value q <= cell_value (fold_left cell_max rest q))%Q.
Proof.
  revert q. induction rest as [|a rest IH]; intros q; simpl.
  - apply Qle_refl.
  - apply Qle_trans with (cell_value (cell_max q a));
      [apply cell_max_ge|apply IH].
Qed.

Lemma fold_cell_max_ge_in (rest : list (cell dt)) (q x : cell dt) :
  In x rest -> (cell_value x <= cell_value (fold_left cell_max rest q))%Q.
Proof.
  revert q. induction rest as [|a rest IH]; intros q Hx; simpl.
  - destruct Hx.
  - destruct Hx as [E|Hin]; [|apply IH; exact Hin].
    subst a. apply Qle_trans with (cell_value (cell_max q x));
      [apply cell_max_ge|apply fold_cell_max_ge_init].
Qed.

Lemma payload_bounds_cover (rows : DataFrame dt) (low high : cell dt) :
  min_payload (load rows) = Some low ->
  max_payload (load rows) = Some high ->
  forall r, In r rows ->
    (cell_value low <= cell_value (Payload_Mass r)
     /\ cell_value (Payload_Mass r) <= cell_value high)%Q.
Proof.
  intros Hmin Hmax r Hr.
  apply (in_map Payload_Mass) in Hr.
  unfold load in Hmin, Hmax. simpl in Hmin, Hmax.
  destruct (map Payload_Mass rows) as [|q rest]; [destruct Hr|].
  simpl in Hmin, Hmax. injection Hmin as <-. injection Hmax as <-.
  destruct Hr as [E|Hin].
  - rewrite <- E. split;
      [apply fold_cell_min_le_init|apply fold_cell_max_ge_init].
  - split; [apply fold_cell_min_le_in|apply fold_cell_max_ge_in]; exact Hin.
Qed.

(** The slider's initial range [min_payload, max_payload] with 'ALL'
    selected keeps the whole table: both bounds are inclusive, and being of
    the column's own kind they are compared without a cast. *)
Lemma initial_range_keeps_table (rows : DataFrame dt) (low high : cell dt) :
  min_payload (load rows) = Some low ->
  max_payload (load rows) = Some high ->
  filterByPayloadRange rows (cell_number low) (cell_number high) = rows.
Proof.
  intros Hmin Hmax. unfold filterByPayloadRange, getitem_mask.
  apply forallb_filter_id, forallb_forall. intros r Hr.
  unfold payload_mask. rewrite ge_scalar_own, le_scalar_own.
  rewrite andb_true_iff, !cell_leb_iff.
  apply (payload_bounds_cover rows low high Hmin Hmax r Hr).
Qed.

End Loader.

(** * Further properties of the script *)

(** ** Start-up values: launch sites, payload bounds, dropdown options *)

Section Startup.

Import Pandas.

Lemma unique_In (col : list string) (s : string) :
  In s (unique col) <-> In s col.
Proof.
  induction col as [|a rest IH]; simpl; [reflexivity|].
  rewrite filter_In, IH, negb_true_iff, String.eqb_neq.
  destruct (string_dec a s) as [E|E]; [tauto|].
  split; [tauto|]. intros [H|H]; [tauto|].
  right. split; [exact H|congruence].
Qed.

Lemma unique_NoDup (col : list string) : NoDup (unique col).
Proof.
  induction col as [|a rest IH]; simpl; constructor.
  - rewrite filter_In, negb_true_iff, String.eqb_neq. tauto.
  - apply NoDup_filter. exact IH.
Qed.

Lemma fold_cell_min_In {dt : dtype} (rest : list (cell dt)) (q : cell dt) :
  In (fold_left cell_min rest q) (q :: rest).
Proof.
  revert q. induction rest as [|a rest IH]; intros q; simpl; [now left|].
  destruct (IH (cell_min q a)) as [E|Hin]; [|right; right; exact Hin].
  rewrite <- E. unfold cell_min. destruct (cell_leb q a); auto.
Qed.

Lemma fold_cell_max_In {dt : dtype} (rest : list (cell dt)) (q : cell dt) :
  In (fold_left cell_max rest q) (q :: rest).
Proof.
  revert q. induction rest as [|a rest IH]; intros q; simpl; [now left|].
  destruct (IH (cell_max q a)) as [E|Hin]; [|right; right; exact Hin].
  rewrite <- E. unfold cell_max. destruct (cell_leb q a); auto.
Qed.

(** X1 (launch sites): [launch_sites] lists every site of the table once:
    it has no repetition, and a site is in it iff some row has that site. *)
Theorem launch_sites_distinct_sites {dt : dtype} (rows : DataFrame dt) :
  NoDup (launch_sites (load rows))
  /\ forall s, In s (launch_sites (load rows)) <->
               exists r, In r rows /\ Launch_Site r = s.
Proof.
  split; [apply unique_NoDup|].
  intros s. simpl. rewrite unique_In, in_map_iff.
  split; intros [r [H1 H2]]; exists r; tauto.
Qed.

(** X2 (payload bounds): on an empty table both bounds are undefined; on a
    table with rows, [min_payload] and [max_payload] are payload masses of
    rows of the table and every row's payload mass lies between them. *)
Theorem payload_bounds_attained {dt : dtype} (rows : DataFrame dt) :
  (rows = [] ->
   min_payload (load rows) = None /\ max_payload (load rows) = None)
  /\ (rows <> [] ->
      exists low high,
        min_payload (load rows) = Some low
        /\ max_payload (load rows) = Some high
        /\ (exists r, In r rows /\ Payload_Mass r = low)
        /\ (exists r, In r rows /\ Payload_Mass r = high)
        /\ forall r, In r rows ->
             (cell_value low <= cell_value (Payload_Mass r)
              /\ cell_value (Payload_Mass r) <= cell_value high)%Q).
Proof.
  split; [intros ->; split; reflexivity|].
  intros Hne. destruct rows as [|r0 rest]; [congruence|].
  exists (fold_left cell_min (map Payload_Mass rest) (Payload_Mass r0)),
         (fold_left cell_max (map Payload_Mass rest) (Payload_Mass r0)).
  split; [reflexivity|split; [reflexivity|]].
  split; [|split].
  - pose proof (fold_cell_min_In (map Payload_Mass rest) (Payload_Mass r0))
      as H.
    change (In (fold_left cell_min (map Payload_Mass rest) (Payload_Mass r0))
               (map Payload_Mass (r0 :: rest))) in H.
    apply in_map_iff in H. destruct H as [r [E Hr]]. exists r. auto.
  - pose proof (fold_cell_max_In (map Payload_Mass rest) (Payload_Mass r0))
      as H.
    change (In (fold_left cell_max (map Payload_Mass rest) (Payload_Mass r0))
               (map Payload_Mass (r0 :: rest))) in H.
    apply in_map_iff in H. destruct H as [r [E Hr]]. exists r. auto.
  - apply (payload_bounds_cover (r0 :: rest)); reflexivity.
Qed.

Lemma payload_bounds_attained_witness :
  scenario_table <> []
  /\ exists low high,
       min_payload (load scenario_table) = Some low
       /\ max_payload (load scenario_table) = Some high.
Proof.
  assert (Hne : scenario_table <> []) by discriminate.
  split; [exact Hne|].
  destruct (proj2 (payload_bounds_attained scenario_table) Hne)
    as (low & high & Hmin & Hmax & _).
  exists low, high. split; assumption.
Defined.

(** X3 (dropdown options): the option values are 'ALL' followed by the
    launch sites, every site of the table is offered, and the values are
    pairwise distinct exactly when no row's site is the text 'ALL'. *)
Theorem options_list_values {dt : dtype} (rows : DataFrame dt) :
  map opt_value (options_list (load rows))
  = "ALL"%string :: launch_sites (load rows)
  /\ (forall r, In r rows ->
        In (mkOption (Launch_Site r) (Launch_Site r))
           (options_list (load rows)))
  /\ (NoDup (map opt_value (options_list (load rows))) <->
      forall r, In r rows -> Launch_Site r <> "ALL"%string).
Proof.
  assert (Hvals : map opt_value (options_list (load rows))
                  = "ALL"%string :: launch_sites (load rows)).
  { unfold options_list. simpl. rewrite map_map. simpl.
    rewrite map_id. reflexivity. }
  split; [exact Hvals|split].
  - intros r Hr. unfold options_list. right.
    apply in_map_iff. exists (Launch_Site r). split; [reflexivity|].
    simpl. rewrite unique_In. apply in_map. exact Hr.
  - rewrite Hvals. simpl. split.
    + intros Hnd r Hr E. apply NoDup_cons_iff in Hnd.
      destruct Hnd as [Hnot _]. apply Hnot.
      rewrite unique_In. rewrite <- E. apply in_map. exact Hr.
    + intros Hall. constructor; [|apply unique_NoDup].
      intros Hin. rewrite unique_In in Hin. apply in_map_iff in Hin.
      destruct Hin as [r [E Hr]]. exact (Hall r Hr E).
Qed.

(** X4 (first rendering): when the table has rows, the scatter callback run
    on the initial controls (site 'ALL', range [min_payload, max_payload])
    draws one point per row of the whole table: no row is filtered out. *)
Theorem initial_scatter_whole_table {dt : dtype} (rows : DataFrame dt) :
  rows <> [] ->
  exists low high,
    min_payload (load rows) = Some low
    /\ max_payload (load rows) = Some high
    /\ update_scatter_chart "ALL" [cell_number low; cell_number high]
         (load rows)
       = (Ok (Plotly.px_scatter rows "Payload vs. Outcome for All Sites"),
          load rows).
Proof.
  intros Hne. destruct rows as [|r0 rest]; [congruence|].
  set (rows := r0 :: rest).
  exists (fold_left cell_min (map Payload_Mass rest) (Payload_Mass r0)),
         (fold_left cell_max (map Payload_Mass rest) (Payload_Mass r0)).
  split; [reflexivity|split; [reflexivity|]].
  rewrite update_scatter_chart_ALL.
  change (spacex_df (load rows)) with rows.
  rewrite (initial_range_keeps_table rows); reflexivity.
Qed.

Lemma initial_scatter_whole_table_witness :
  scenario_table <> []
  /\ update_scatter_chart "ALL" [PyInt 500; PyInt 3000] (load scenario_table)
     = (Ok (Plotly.px_scatter scenario_table
              "Payload vs. Outcome for All Sites"),
        load scenario_table).
Proof.
  assert (Hne : scenario_table <> []) by discriminate.
  split; [exact Hne|].
  destruct (initial_scatter_whole_table scenario_table Hne)
    as (low & high & Hmin & Hmax & Hrun).
  injection Hmin as <-. injection Hmax as <-. exact Hrun.
Defined.

End Startup.

(** ** The scatter callback *)

Section Scatter.

Import Plotly.

Lemma filterBySite_In {dt : dtype} (df : DataFrame dt) (s : string)
  (r : row dt) :
  In r (filterBySite df s) <-> In r df /\ Launch_Site r = s.
Proof.
  unfold filterBySite, Pandas.getitem_mask.
  rewrite filter_In, site_mask_true. reflexivity.
Qed.

Lemma filterByPayloadRange_In {dt : dtype} (df : DataFrame dt)
  (low high : number) (r : row dt) :
  In r (filterByPayloadRange df low high) <->
  In r df /\ payload_mask low high r = true.
Proof.
  unfold filterByPayloadRange, Pandas.getitem_mask.
  apply filter_In.
Qed.

Lemma scatter_points_ALL {dt : dtype} (low high : number) (g : globals dt) :
  figure_points (outcome (update_scatter_chart "ALL" [low; high]) g)
  = map (fun r => mkPoint (cell_number (Payload_Mass r)) (class r)
                          (Booster_Version_Category r))
        (filterByPayloadRange (spacex_df g) low high).
Proof. reflexivity. Qed.

Lemma scatter_points_site {dt : dtype} (s : string) (low high : number)
  (g : globals dt) :
  s <> "ALL"%string ->
  figure_points (outcome (update_scatter_chart s [low; high]) g)
  = map (fun r => mkPoint (cell_number (Payload_Mass r)) (class r)
                          (Booster_Version_Category r))
        (filterBySite (filterByPayloadRange (spacex_df g) low high) s).
Proof.
  intros Hs. unfold outcome.
  rewrite update_scatter_chart_site by exact Hs. reflexivity.
Qed.

(** X5 (points in range): when the comparisons of the payload filter keep
    the values they compare (see C2), every point the scatter callback
    draws comes from a row of the table whose payload mass lies in
    [low, high], and for a site other than 'ALL' from a row of that
    site. *)
Theorem scatter_points_in_range {dt : dtype}
  (g : globals dt) (entered_site : string) (low high : number) (p : point) :
  range_exact (spacex_df g) low high ->
  In p (figure_points
          (outcome (update_scatter_chart entered_site [low; high]) g)) ->
  exists r,
    In r (spacex_df g)
    /\ p = mkPoint (cell_number (Payload_Mass r)) (class r)
                   (Booster_Version_Category r)
    /\ (number_value low <= number_value (x p)
        /\ number_value (x p) <= number_value high)%Q
    /\ (entered_site <> "ALL"%string -> Launch_Site r = entered_site).
Proof.
  intros Hex.
  assert (Hrange : forall r,
    In r (filterByPayloadRange (spacex_df g) low high) ->
    In r (spacex_df g)
    /\ (number_value low <= cell_value (Payload_Mass r)
        /\ cell_value (Payload_Mass r) <= number_value high)%Q).
  { intros r Hr. apply filterByPayloadRange_In in Hr.
    destruct Hr as [Hr Hm]. split; [exact Hr|].
    destruct (Hex r Hr) as [H1 H2].
    apply (payload_mask_exact low high r H1 H2). exact Hm. }
  destruct (string_dec entered_site "ALL") as [->|Hs].
  - rewrite scatter_points_ALL, in_map_iff.
    intros [r [<- Hr]]. apply Hrange in Hr.
    exists r. simpl. fold (cell_value (Payload_Mass r)). intuition.
  - rewrite scatter_points_site by exact Hs. rewrite in_map_iff.
    intros [r [<- Hr]]. apply filterBySite_In in Hr.
    destruct Hr as [Hr Hsite]. apply Hrange in Hr.
    exists r. simpl. fold (cell_value (Payload_Mass r)). intuition.
Qed.

Lemma scatter_points_in_range_witness :
  range_exact (spacex_df (load scenario_table))
    (PyFloat (0 # 1)) (PyFloat (1000 # 1))
  /\ exists r,
       In r scenario_table
       /\ mkPoint (PyInt 500) 1 "v1"
          = mkPoint (cell_number (Payload_Mass r)) (class r)
                    (Booster_Version_Category r).
Proof.
  pose proof (scenario_range_exact (PyFloat (0 # 1)) (PyFloat (1000 # 1)))
    as Hex.
  split; [exact Hex|].
  assert (Hin : In (mkPoint (PyInt 500) 1 "v1")
    (figure_points
       (outcome (update_scatter_chart "SiteA"
                   [PyFloat (0 # 1); PyFloat (1000 # 1)])
                (load scenario_table)))) by (simpl; auto).
  destruct (scatter_points_in_range (load scenario_table) "SiteA"
              (PyFloat (0 # 1)) (PyFloat (1000 # 1)) _ Hex Hin)
    as (r & Hr & Hp & _).
  exists r. split; assumption.
Defined.

Lemma number_max_le_iff (a c : number) (m : Q) :
  (number_value (number_max a c) <= m)%Q
  <-> (number_value a <= m /\ number_value c <= m)%Q.
Proof.
  unfold number_max.
  destruct (Qle_bool (number_value a) (number_value c)) eqn:E.
  - apply Qle_bool_iff in E. split; [|tauto].
    intros H. split; [eapply Qle_trans; eassumption|exact H].
  - assert (Hlt : (number_value c < number_value a)%Q).
    { apply Qnot_le_lt. intros H. apply Qle_bool_iff in H. congruence. }
    split; [|tauto].
    intros H. split; [exact H|].
    apply Qle_trans with (number_value a);
      [apply Qlt_le_weak; exact Hlt|exact H].
Qed.

Lemma number_min_ge_iff (b d : number) (m : Q) :
  (m <= number_value (number_min b d))%Q
  <-> (m <= number_value b /\ m <= number_value d)%Q.
Proof.
  unfold number_min.
  destruct (Qle_bool (number_value b) (number_value d)) eqn:E.
  - apply Qle_bool_iff in E. split; [|tauto].
    intros H. split; [exact H|eapply Qle_trans; eassumption].
  - assert (Hlt : (number_value d < number_value b)%Q).
    { apply Qnot_le_lt. intros H. apply Qle_bool_iff in H. congruence. }
    split; [|tauto].
    intros H. split; [|exact H].
    apply Qle_trans with (number_value d);
      [exact H|apply Qlt_le_weak; exact Hlt].
Qed.

Lemma getitem_mask_and {dt : dtype} (df : DataFrame dt)
  (m1 m2 : row dt -> bool) :
  Pandas.getitem_mask (Pandas.getitem_mask df m1) m2
  = Pandas.getitem_mask df (fun r => m1 r && m2 r).
Proof.
  unfold Pandas.getitem_mask.
  induction df as [|r rest IH]; simpl; [reflexivity|].
  destruct (m1 r); simpl; [|exact IH].
  destruct (m2 r); rewrite IH; reflexivity.
Qed.

(** X6 (ranges compose): when the comparisons with all four bounds keep the
    values they compare (see C2), filtering by one payload range and then
    by another keeps the rows of the intersection of the two ranges, the
    range from the larger lower bound to the smaller upper bound. *)
Theorem filterByPayloadRange_nested {dt : dtype} (df : DataFrame dt)
  (a b c d : number) :
  range_exact df a b ->
  range_exact df c d ->
  filterByPayloadRange (filterByPayloadRange df a b) c d
  = filterByPayloadRange df (number_max a c) (number_min b d).
Proof.
  intros Hab Hcd.
  unfold filterByPayloadRange. rewrite getitem_mask_and.
  unfold Pandas.getitem_mask. apply filter_ext_in. intros r Hr.
  destruct (Hab r Hr) as [Ha Hb]. destruct (Hcd r Hr) as [Hc Hd].
  assert (Hmax : compares_exactly (Payload_Mass r) (number_max a c))
    by (unfold number_max; destruct (Qle_bool _ _); assumption).
  assert (Hmin : compares_exactly (Payload_Mass r) (number_min b d))
    by (unfold number_min; destruct (Qle_bool _ _); assumption).
  apply eq_true_iff_eq.
  rewrite andb_true_iff.
  rewrite (payload_mask_exact a b r Ha Hb),
    (payload_mask_exact c d r Hc Hd),
    (payload_mask_exact _ _ r Hmax Hmin),
    number_max_le_iff, number_min_ge_iff.
  tauto.
Qed.

Lemma filterByPayloadRange_nested_witness :
  range_exact scenario_table (PyInt 0) (PyFloat (2000 # 1))
  /\ range_exact scenario_table (PyFloat (1000 # 1)) (PyInt 3000)
  /\ filterByPayloadRange
       (filterByPayloadRange scenario_table (PyInt 0) (PyFloat (2000 # 1)))
       (PyFloat (1000 # 1)) (PyInt 3000)
     = filterByPayloadRange scenario_table
         (number_max (PyInt 0) (PyFloat (1000 # 1)))
         (number_min (PyFloat (2000 # 1)) (PyInt 3000)).
Proof.
  pose proof (scenario_range_exact (PyInt 0) (PyFloat (2000 # 1))) as Hab.
  pose proof (scenario_range_exact (PyFloat (1000 # 1)) (PyInt 3000)) as Hcd.
  split; [exact Hab|split; [exact Hcd|]].
  exact (filterByPayloadRange_nested scenario_table _ _ _ _ Hab Hcd).
Defined.

End Scatter.

(** ** Sites against the whole table *)

Section Sites.

Import Plotly.

Lemma count_occ_cover {A : Type} (dec : forall a b : A, {a = b} + {a <> b})
  (ks col : list A) :
  NoDup ks -> (forall a, In a col -> In a ks) ->
  list_sum (map (count_occ dec col) ks) = List.length col.
Proof.
  intros Hnd. induction col as [|a rest IH]; intros Hcov.
  - clear. induction ks as [|k ks IHks]; simpl; auto.
  - assert (Hsplit : forall l,
      list_sum (map (count_occ dec (a :: rest)) l)
      = (count_occ dec l a + list_sum (map (count_occ dec rest) l))%nat).
    { induction l as [|k l IHl]; simpl; [reflexivity|].
      simpl in IHl. rewrite IHl.
      destruct (dec a k), (dec k a); try congruence; lia. }
    rewrite Hsplit, IH by (intros; apply Hcov; now right).
    assert (Ha : In a ks) by (apply Hcov; now left).
    rewrite (proj1 (NoDup_count_occ' dec ks) Hnd a Ha).
    reflexivity.
Qed.

Lemma filterBySite_length {dt : dtype} (df : DataFrame dt) (s : string) :
  List.length (filterBySite df s)
  = count_occ string_dec (map Launch_Site df) s.
Proof.
  unfold filterBySite, Pandas.getitem_mask, site_mask.
  induction df as [|r rest IH]; simpl; [reflexivity|].
  destruct (string_dec (Launch_Site r) s) as [E|E].
  - apply String.eqb_eq in E. rewrite E. simpl. now rewrite IH.
  - apply String.eqb_neq in E. now rewrite E.
Qed.

(** The rows of a part of the table split over the launch sites. *)
Lemma site_rows_cover {dt : dtype} (rows part : DataFrame dt) :
  (forall r, In r part -> In r rows) ->
  list_sum (map (fun s => List.length (filterBySite part s))
                (launch_sites (load rows)))
  = List.length part.
Proof.
  intros Hsub.
  rewrite (map_ext _ (count_occ string_dec (map Launch_Site part)))
    by (intros s; apply filterBySite_length).
  rewrite count_occ_cover; [apply length_map|apply unique_NoDup|].
  intros s Hs. simpl. rewrite unique_In.
  apply in_map_iff in Hs. destruct Hs as [r [<- Hr]].
  apply in_map. apply Hsub. exact Hr.
Qed.

Lemma launch_sites_not_ALL {dt : dtype} (rows : DataFrame dt) (s : string) :
  (forall r, In r rows -> Launch_Site r <> "ALL"%string) ->
  In s (launch_sites (load rows)) -> s <> "ALL"%string.
Proof.
  intros Hall Hs. simpl in Hs. rewrite unique_In in Hs.
  apply in_map_iff in Hs. destruct Hs as [r [<- Hr]]. auto.
Qed.

Lemma sectors_total_site_df (site_df : list (Z * Z)) :
  sectors_total (map (fun cr : Z * Z => (IntLabel (fst cr), snd cr)) site_df)
  = counts_total site_df.
Proof.
  induction site_df as [|cr rest IH]; simpl; [reflexivity|].
  rewrite IH. reflexivity.
Qed.

Lemma pie_sectors_site {dt : dtype} (s : string) (g : globals dt) :
  s <> "ALL"%string ->
  figure_sectors (outcome (get_pie_chart s) g)
  = map (fun cr : Z * Z => (IntLabel (fst cr), snd cr))
        (siteOutcomeCounts (spacex_df g) s).
Proof.
  intros Hs. unfold outcome.
  rewrite get_pie_chart_site by exact Hs. reflexivity.
Qed.

Lemma pie_total_site {dt : dtype} (s : string) (g : globals dt) :
  s <> "ALL"%string ->
  sectors_total (figure_sectors (outcome (get_pie_chart s) g))
  = Z.of_nat (List.length (filterBySite (spacex_df g) s)).
Proof.
  intros Hs. rewrite pie_sectors_site by exact Hs.
  rewrite sectors_total_site_df. unfold siteOutcomeCounts.
  rewrite counts_total_groupby_size, length_map. reflexivity.
Qed.

Lemma Zsum_of_nat {A : Type} (f : A -> nat) (l : list A) :
  Zsum (map (fun a => Z.of_nat (f a)) l) = Z.of_nat (list_sum (map f l)).
Proof.
  unfold Zsum. induction l as [|a rest IH]; simpl; [reflexivity|].
  rewrite IH. lia.
Qed.

(** X8 (site pies cover the table): when no site is named 'ALL', adding up
    the slices of the pie charts of all launch sites gives the number of
    rows of the table: every launch is counted for exactly one site. *)
Theorem site_pies_cover_table {dt : dtype} (rows : DataFrame dt) :
  (forall r, In r rows -> Launch_Site r <> "ALL"%string) ->
  Zsum (map (fun s => sectors_total
                        (figure_sectors
                           (outcome (get_pie_chart s) (load rows))))
            (launch_sites (load rows)))
  = Z.of_nat (List.length rows).
Proof.
  intros Hall.
  rewrite (map_ext_in _
    (fun s => Z.of_nat (List.length (filterBySite rows s)))).
  - rewrite Zsum_of_nat, site_rows_cover; auto.
  - intros s Hs. apply pie_total_site.
    apply (launch_sites_not_ALL rows); assumption.
Qed.

Lemma site_pies_cover_table_witness :
  (forall r, In r scenario_table -> Launch_Site r <> "ALL"%string)
  /\ Zsum (map (fun s => sectors_total
                           (figure_sectors
                              (outcome (get_pie_chart s)
                                       (load scenario_table))))
               (launch_sites (load scenario_table)))
     = 3.
Proof.
  assert (Hall : forall r, In r scenario_table ->
                           Launch_Site r <> "ALL"%string).
  { simpl. intros r [<-|[<-|[<-|[]]]]; simpl; discriminate. }
  split; [exact Hall|].
  exact (site_pies_cover_table scenario_table Hall).
Defined.

(** X9 (site scatters cover the 'ALL' scatter): when no site is named
    'ALL', for every payload range the scatter charts of the launch sites
    together have as many points as the scatter chart of 'ALL'. *)
Theorem site_scatters_cover_ALL {dt : dtype} (rows : DataFrame dt)
  (low high : number) :
  (forall r, In r rows -> Launch_Site r <> "ALL"%string) ->
  list_sum
    (map (fun s => List.length
                     (figure_points
                        (outcome (update_scatter_chart s [low; high])
                                 (load rows))))
         (launch_sites (load rows)))
  = List.length
      (figure_points
         (outcome (update_scatter_chart "ALL" [low; high]) (load rows))).
Proof.
  intros Hall.
  rewrite scatter_points_ALL, length_map.
  change (spacex_df (load rows)) with rows.
  rewrite (map_ext_in _
    (fun s => List.length
                (filterBySite (filterByPayloadRange rows low high) s))).
  - apply site_rows_cover. intros r Hr.
    apply filterByPayloadRange_In in Hr. tauto.
  - intros s Hs. rewrite scatter_points_site, length_map; [reflexivity|].
    apply (launch_sites_not_ALL rows); assumption.
Qed.

Lemma site_scatters_cover_ALL_witness :
  (forall r, In r scenario_table -> Launch_Site r <> "ALL"%string)
  /\ list_sum
       (map (fun s => List.length
                        (figure_points
                           (outcome
                              (update_scatter_chart s [PyInt 0; PyInt 2000])
                              (load scenario_table))))
            (launch_sites (load scenario_table)))
     = 2%nat.
Proof.
  assert (Hall : forall r, In r scenario_table ->
                           Launch_Site r <> "ALL"%string).
  { simpl. intros r [<-|[<-|[<-|[]]]]; simpl; discriminate. }
  split; [exact Hall|].
  exact (site_scatters_cover_ALL scenario_table (PyInt 0) (PyInt 2000) Hall).
Defined.

(** X10 (scatter against pie): for a site other than 'ALL', the scatter
    chart never has more points than the site's pie chart counts launches,
    and with the initial range [min_payload, max_payload] it has exactly as
    many. *)
Theorem site_scatter_against_pie {dt : dtype}
  (rows : DataFrame dt) (entered_site : string) (low high : number) :
  entered_site <> "ALL"%string ->
  Z.of_nat (List.length
              (figure_points
                 (outcome (update_scatter_chart entered_site [low; high])
                          (load rows))))
  <= sectors_total
       (figure_sectors (outcome (get_pie_chart entered_site) (load rows)))
  /\ (forall lo hi : cell dt,
      min_payload (load rows) = Some lo ->
      max_payload (load rows) = Some hi ->
      Z.of_nat (List.length
                  (figure_points
                     (outcome (update_scatter_chart entered_site
                                 [cell_number lo; cell_number hi])
                              (load rows))))
      = sectors_total
          (figure_sectors
             (outcome (get_pie_chart entered_site) (load rows)))).
Proof.
  intros Hs. rewrite pie_total_site by exact Hs.
  change (spacex_df (load rows)) with rows.
  split.
  - rewrite scatter_points_site, length_map by exact Hs.
    change (spacex_df (load rows)) with rows.
    apply Nat2Z.inj_le.
    unfold filterBySite at 1. unfold filterByPayloadRange.
    rewrite getitem_mask_swap.
    unfold Pandas.getitem_mask at 1. apply filter_length_le.
  - intros lo hi Hmin Hmax.
    rewrite scatter_points_site, length_map by exact Hs.
    change (spacex_df (load rows)) with rows.
    rewrite (initial_range_keeps_table rows lo hi Hmin Hmax).
    reflexivity.
Qed.

End Sites.

Lemma site_scatter_against_pie_witness :
  "SiteA"%string <> "ALL"%string
  /\ min_payload (load scenario_table) = Some 500
  /\ max_payload (load scenario_table) = Some 3000
  /\ Z.of_nat (List.length
                 (figure_points
                    (outcome
                       (update_scatter_chart "SiteA" [PyInt 500; PyInt 3000])
                       (load scenario_table))))
     = Plotly.sectors_total
         (figure_sectors
            (outcome (get_pie_chart "SiteA") (load scenario_table))).
Proof.
  assert (Hs : "SiteA"%string <> "ALL"%string) by discriminate.
  assert (Hmin : min_payload (load scenario_table) = Some 500)
    by reflexivity.
  assert (Hmax : max_payload (load scenario_table) = Some 3000)
    by reflexivity.
  split; [exact Hs|split; [exact Hmin|split; [exact Hmax|]]].
  exact (proj2 (site_scatter_against_pie scenario_table "SiteA"
                  (PyInt 500) (PyInt 3000) Hs) 500 3000 Hmin Hmax).
Defined.

(** ** The slices of the pie charts *)

Section PieSlices.

Import Plotly.

Lemma groupby_size_keys (col : list Z) :
  map fst (Pandas.groupby_size col) = Pandas.group_keys col.
Proof.
  unfold Pandas.groupby_size. rewrite map_map. simpl. apply map_id.
Qed.

Lemma groupby_size_positive (col : list Z) :
  Forall (fun cr => 0 < snd cr) (Pandas.groupby_size col).
Proof.
  apply Forall_forall. intros [k n] Hin. simpl.
  unfold Pandas.groupby_size in Hin. apply in_map_iff in Hin.
  destruct Hin as [k' [E Hk]]. inversion E; subst k' n.
  rewrite group_keys_In in Hk.
  rewrite (count_occ_In Z.eq_dec) in Hk.
  unfold Pandas.group_size. lia.
Qed.

Lemma ascending_binary_length (ks : list Z) :
  ascending ks -> (forall k, In k ks -> k = 0 \/ k = 1) ->
  (List.length ks <= 2)%nat.
Proof.
  intros Hasc Hbin.
  destruct Hasc as [|k1 ks1 H1 Hasc1]; [simpl; lia|].
  destruct Hasc1 as [|k2 ks2 H2 Hasc2]; [simpl; lia|].
  destruct Hasc2 as [|k3 ks3 H3 _]; [simpl; lia|].
  exfalso.
  assert (k1 < k2) by (apply H1; simpl; auto).
  assert (k2 < k3) by (apply H2; simpl; auto).
  destruct (Hbin k1) as [E1|E1]; [simpl; auto| |];
    destruct (Hbin k3) as [E3|E3]; simpl; auto; lia.
Qed.

(** X11 (shape of a site's counts): [site_df] lists its classes in strictly
    ascending order, so without repetition, and every count is positive;
    for a table with binary outcome classes it has at most two rows, for
    class 0 and class 1. *)
Theorem siteOutcomeCounts_shape {dt : dtype} (df : DataFrame dt)
  (entered_site : string) :
  ascending (map fst (siteOutcomeCounts df entered_site))
  /\ Forall (fun cr => 0 < snd cr) (siteOutcomeCounts df entered_site)
  /\ (binary_class df ->
      (List.length (siteOutcomeCounts df entered_site) <= 2)%nat
      /\ forall cr, In cr (siteOutcomeCounts df entered_site) ->
                    fst cr = 0 \/ fst cr = 1).
Proof.
  unfold siteOutcomeCounts.
  split; [|split].
  - rewrite groupby_size_keys. apply group_keys_ascending.
  - apply groupby_size_positive.
  - intros Hbin.
    assert (Hkeys : forall k,
      In k (Pandas.group_keys (map class (filterBySite df entered_site))) ->
      k = 0 \/ k = 1).
    { intros k Hk. rewrite group_keys_In in Hk.
      apply in_map_iff in Hk. destruct Hk as [r [<- Hr]].
      apply filterBySite_In in Hr. destruct Hr as [Hr _].
      unfold binary_class in Hbin. rewrite Forall_forall in Hbin. auto. }
    split.
    + rewrite <- (length_map fst), groupby_size_keys.
      apply ascending_binary_length; [apply group_keys_ascending|exact Hkeys].
    + intros cr Hcr. apply Hkeys. rewrite <- groupby_size_keys.
      apply in_map. exact Hcr.
Qed.

Lemma siteOutcomeCounts_shape_witness :
  binary_class scenario_table
  /\ (List.length (siteOutcomeCounts scenario_table "SiteA") <= 2)%nat.
Proof.
  assert (Hbin : binary_class scenario_table).
  { unfold binary_class, scenario_table.
    repeat (apply Forall_cons; [simpl; auto|]). apply Forall_nil. }
  split; [exact Hbin|].
  destruct (siteOutcomeCounts_shape scenario_table "SiteA")
    as (_ & _ & Hshape).
  exact (proj1 (Hshape Hbin)).
Defined.

(** X12 (sites with a chart): for a site other than 'ALL', the pie chart
    has a slice exactly when the site is one of [launch_sites], that is,
    one the dropdown offers. *)
Theorem site_pie_nonempty_iff {dt : dtype} (rows : DataFrame dt)
  (entered_site : string) :
  entered_site <> "ALL"%string ->
  (figure_sectors (outcome (get_pie_chart entered_site) (load rows)) <> []
   <-> In entered_site (launch_sites (load rows))).
Proof.
  intros Hs. rewrite pie_sectors_site by exact Hs.
  change (spacex_df (load rows)) with rows.
  simpl launch_sites. rewrite unique_In, in_map_iff.
  split.
  - intros Hne.
    destruct (filterBySite rows entered_site) as [|r rest] eqn:E.
    + exfalso. apply Hne. unfold siteOutcomeCounts. rewrite E. reflexivity.
    + assert (Hr : In r (filterBySite rows entered_site))
        by (rewrite E; now left).
      apply filterBySite_In in Hr. exists r. tauto.
  - intros [r [Hsite Hr]] Hempty.
    apply map_eq_nil in Hempty.
    assert (Hin : In (class r)
      (map fst (siteOutcomeCounts rows entered_site))).
    { unfold siteOutcomeCounts. rewrite groupby_size_keys, group_keys_In.
      apply in_map. apply filterBySite_In. tauto. }
    rewrite Hempty in Hin. destruct Hin.
Qed.

Lemma site_pie_nonempty_iff_witness :
  "SiteB"%string <> "ALL"%string
  /\ figure_sectors (outcome (get_pie_chart "SiteB") (load scenario_table))
     <> [].
Proof.
  assert (Hs : "SiteB"%string <> "ALL"%string) by discriminate.
  split; [exact Hs|].
  apply (site_pie_nonempty_iff scenario_table "SiteB" Hs).
  simpl. auto.
Defined.

End PieSlices.

(** ** The 'ALL' pie chart, site by site *)

Section AllPie.

Import Plotly.

Lemma label_eqb_refl (l : label) : label_eqb l l = true.
Proof. apply label_eqb_eq. reflexivity. Qed.

Lemma label_eqb_neq (a b : label) : label_eqb a b = false <-> a <> b.
Proof.
  rewrite <- label_eqb_eq. destruct (label_eqb a b); split; congruence.
Qed.

Lemma lookup_label_add_same (l : label) (v : Z) (cd : list (label * Z)) :
  lookup_label l (add_to_sector l v cd)
  = Some (match lookup_label l cd with Some w => w + v | None => v end).
Proof.
  induction cd as [|[l1 v1] rest IH]; simpl.
  - rewrite label_eqb_refl. reflexivity.
  - destruct (label_eqb l l1) eqn:E; simpl; rewrite E; [reflexivity|].
    exact IH.
Qed.

Lemma lookup_label_add_other (l l' : label) (v : Z) (cd : list (label * Z)) :
  l <> l' ->
  lookup_label l (add_to_sector l' v cd) = lookup_label l cd.
Proof.
  intros Hne. induction cd as [|[l1 v1] rest IH]; simpl.
  - apply label_eqb_neq in Hne. rewrite Hne. reflexivity.
  - destruct (label_eqb l' l1) eqn:E'; simpl.
    + apply label_eqb_eq in E'. subst l1.
      apply label_eqb_neq in Hne. rewrite Hne. reflexivity.
    + destruct (label_eqb l l1); [reflexivity|exact IH].
Qed.

Lemma lookup_label_fold (l : label) (pts cd : list (label * Z)) :
  lookup_label l
    (fold_left (fun cd p => add_to_sector (fst p) (snd p) cd) pts cd)
  = match lookup_label l cd with
    | Some w => Some (w + label_sum l pts)
    | None => if label_occurs l pts then Some (label_sum l pts) else None
    end.
Proof.
  revert cd. induction pts as [|[l' v] rest IH]; intros cd.
  - simpl. destruct (lookup_label l cd); [f_equal; lia|reflexivity].
  - cbn [fold_left fst snd]. rewrite IH.
    unfold label_sum, label_occurs. cbn [fold_right existsb fst snd].
    fold (label_sum l rest). fold (label_occurs l rest).
    destruct (label_eqb l l') eqn:E.
    + apply label_eqb_eq in E. subst l'.
      rewrite lookup_label_add_same.
      destruct (lookup_label l cd); simpl; f_equal; lia.
    + apply label_eqb_neq in E.
      rewrite lookup_label_add_other by exact E.
      reflexivity.
Qed.

Lemma add_to_sector_labels (l l0 : label) (v : Z) (cd : list (label * Z)) :
  In l0 (map fst (add_to_sector l v cd)) <-> l0 = l \/ In l0 (map fst cd).
Proof.
  induction cd as [|[l1 v1] rest IH]; simpl.
  - intuition.
  - destruct (label_eqb l l1) eqn:E; simpl.
    + apply label_eqb_eq in E. subst l1. intuition.
    + rewrite IH. intuition.
Qed.

Lemma add_to_sector_NoDup (l : label) (v : Z) (cd : list (label * Z)) :
  NoDup (map fst cd) -> NoDup (map fst (add_to_sector l v cd)).
Proof.
  induction cd as [|[l1 v1] rest IH]; simpl; intros Hnd.
  - constructor; [intros []|constructor].
  - apply NoDup_cons_iff in Hnd. destruct Hnd as [Hnot Hnd].
    destruct (label_eqb l l1) eqn:E; simpl.
    + constructor; assumption.
    + constructor; [|apply IH; exact Hnd].
      rewrite add_to_sector_labels. intros [->|Hin]; [|contradiction].
      rewrite label_eqb_refl in E. discriminate E.
Qed.

Lemma sum_by_label_NoDup (pts : list (label * Z)) :
  NoDup (map fst (sum_by_label pts)).
Proof.
  unfold sum_by_label.
  assert (H : forall cd, NoDup (map fst cd) ->
    NoDup (map fst
      (fold_left (fun cd p => add_to_sector (fst p) (snd p) cd) pts cd))).
  { induction pts as [|p rest IH]; intros cd Hcd; simpl; [exact Hcd|].
    apply IH. apply add_to_sector_NoDup. exact Hcd. }
  apply H. constructor.
Qed.

Lemma lookup_label_absent (l : label) (cd : list (label * Z)) :
  ~ In l (map fst cd) -> lookup_label l cd = None.
Proof.
  induction cd as [|[l1 v1] rest IH]; simpl; intros Hnot; [reflexivity|].
  destruct (label_eqb l l1) eqn:E.
  - apply label_eqb_eq in E. subst l1. exfalso. apply Hnot. now left.
  - apply IH. intros Hin. apply Hnot. now right.
Qed.

Lemma lookup_label_positive (l : label) (cd : list (label * Z)) :
  NoDup (map fst cd) ->
  lookup_label l (filter (fun s => 0 <? snd s) cd)
  = match lookup_label l cd with
    | Some v => if 0 <? v then Some v else None
    | None => None
    end.
Proof.
  induction cd as [|[l1 v1] rest IH]; simpl; intros Hnd; [reflexivity|].
  apply NoDup_cons_iff in Hnd. destruct Hnd as [Hnot Hnd].
  destruct (label_eqb l l1) eqn:E.
  - destruct (0 <? v1) eqn:Hv; simpl; [rewrite E; reflexivity|].
    apply label_eqb_eq in E. subst l1.
    rewrite IH by exact Hnd.
    rewrite (lookup_label_absent l rest Hnot). reflexivity.
  - destruct (0 <? v1); simpl; [rewrite E|]; apply IH; exact Hnd.
Qed.

Lemma label_sum_absent (l : label) (pts : list (label * Z)) :
  label_occurs l pts = false -> label_sum l pts = 0.
Proof.
  unfold label_occurs, label_sum.
  induction pts as [|p rest IH]; simpl; [reflexivity|].
  intros H. apply orb_false_iff in H. destruct H as [E Hrest].
  rewrite E. apply IH. exact Hrest.
Qed.

Lemma label_sum_cons (l : label) (p : label * Z) (pts : list (label * Z)) :
  label_sum l (p :: pts)
  = if label_eqb l (fst p) then snd p + label_sum l pts else label_sum l pts.
Proof. reflexivity. Qed.

Lemma label_sum_site {dt : dtype} (df : DataFrame dt) (s : string) :
  binary_class df ->
  label_sum (StrLabel s)
    (map (fun r => (StrLabel (Launch_Site r), class r)) df)
  = site_class_count df s 1.
Proof.
  unfold site_class_count, filterBySite, Pandas.getitem_mask, site_mask.
  induction 1 as [|r rest Hr _ IH]; [reflexivity|].
  cbn [map]. rewrite label_sum_cons, IH.
  cbn [fst snd label_eqb filter].
  rewrite (String.eqb_sym s (Launch_Site r)).
  destruct (String.eqb (Launch_Site r) s); [|reflexivity].
  cbn [filter].
  destruct Hr as [E|E]; rewrite E; cbn [Z.eqb Pos.eqb List.length].
  - lia.
  - rewrite Nat2Z.inj_succ. lia.
Qed.

Lemma lookup_class_site_df (c : Z) (site_df : list (Z * Z)) :
  lookup_label (IntLabel c)
    (map (fun cr : Z * Z => (IntLabel (fst cr), snd cr)) site_df)
  = lookup_class c site_df.
Proof.
  induction site_df as [|[c1 n1] rest IH]; simpl; [reflexivity|].
  rewrite IH. reflexivity.
Qed.

Lemma lookup_class_siteOutcomeCounts {dt : dtype} (df : DataFrame dt)
  (s : string) (c : Z) :
  lookup_class c (siteOutcomeCounts df s)
  = if site_class_count df s c =? 0 then None
    else Some (site_class_count df s c).
Proof.
  unfold siteOutcomeCounts, site_class_count.
  rewrite lookup_class_groupby_size. unfold Pandas.group_size.
  rewrite <- count_occ_filter_length.
  destruct (in_dec Z.eq_dec c (map class (filterBySite df s))) as [Hin|Hout].
  - rewrite (count_occ_In Z.eq_dec) in Hin.
    destruct (Z.eqb_spec
      (Z.of_nat (count_occ Z.eq_dec (map class (filterBySite df s)) c)) 0);
      [lia|reflexivity].
  - rewrite (count_occ_not_In Z.eq_dec) in Hout. rewrite Hout. reflexivity.
Qed.

Lemma lookup_label_siteSuccessTotals {dt : dtype} (df : DataFrame dt)
  (s : string) :
  binary_class df ->
  lookup_label (StrLabel s) (siteSuccessTotals df)
  = if site_class_count df s 1 =? 0 then None
    else Some (site_class_count df s 1).
Proof.
  intros Hbin. unfold siteSuccessTotals, pie_sectors.
  rewrite lookup_label_positive by apply sum_by_label_NoDup.
  unfold sum_by_label. rewrite lookup_label_fold. cbn [lookup_label].
  pose proof (label_sum_site df s Hbin) as Hsum.
  destruct (label_occurs (StrLabel s)
              (map (fun r => (StrLabel (Launch_Site r), class r)) df)) eqn:Hocc.
  - rewrite Hsum.
    assert (Hge : 0 <= site_class_count df s 1)
      by (unfold site_class_count; lia).
    destruct (Z.eqb_spec (site_class_count df s 1) 0) as [E|E].
    + rewrite E. reflexivity.
    + destruct (Z.ltb_spec 0 (site_class_count df s 1)); [reflexivity|lia].
  - apply label_sum_absent in Hocc. rewrite Hsum in Hocc.
    rewrite Hocc. reflexivity.
Qed.

(** X13 (the two pie charts agree): with binary outcome classes, a site
    other than 'ALL' that has a row of class 1 has the same value in the
    'ALL' pie chart as in the class-1 slice of its own pie chart: the
    number of its rows of class 1. *)
Theorem ALL_slice_is_success_slice {dt : dtype} (g : globals dt)
  (entered_site : string) :
  binary_class (spacex_df g) ->
  entered_site <> "ALL"%string ->
  0 < site_class_count (spacex_df g) entered_site 1 ->
  lookup_label (StrLabel entered_site)
    (figure_sectors (outcome (get_pie_chart "ALL") g))
  = Some (site_class_count (spacex_df g) entered_site 1)
  /\ lookup_label (IntLabel 1)
       (figure_sectors (outcome (get_pie_chart entered_site) g))
     = Some (site_class_count (spacex_df g) entered_site 1).
Proof.
  intros Hbin Hs Hpos.
  rewrite (pie_sectors_site entered_site g Hs).
  rewrite lookup_class_site_df, lookup_class_siteOutcomeCounts.
  unfold outcome. rewrite get_pie_chart_ALL. cbn [fst figure_sectors].
  rewrite lookup_label_siteSuccessTotals by exact Hbin.
  destruct (Z.eqb_spec (site_class_count (spacex_df g) entered_site 1) 0);
    [lia|split; reflexivity].
Qed.

Lemma ALL_slice_is_success_slice_witness :
  binary_class (spacex_df (load scenario_table))
  /\ "SiteA"%string <> "ALL"%string
  /\ 0 < site_class_count (spacex_df (load scenario_table)) "SiteA" 1
  /\ lookup_label (StrLabel "SiteA")
       (figure_sectors (outcome (get_pie_chart "ALL") (load scenario_table)))
     = Some 1.
Proof.
  assert (Hbin : binary_class (spacex_df (load scenario_table))).
  { unfold binary_class. simpl.
    repeat (apply Forall_cons; [simpl; auto|]). apply Forall_nil. }
  assert (Hs : "SiteA"%string <> "ALL"%string) by discriminate.
  assert (Hpos : 0 < site_class_count (spacex_df (load scenario_table))
                       "SiteA" 1) by reflexivity.
  split; [exact Hbin|split; [exact Hs|split; [exact Hpos|]]].
  exact (proj1 (ALL_slice_is_success_slice (load scenario_table) "SiteA"
                  Hbin Hs Hpos)).
Defined.

End AllPie.
